(** * shared-service-client: the request pipeline of [client.go]

    A shallow embedding of [doRequest], [isRetryableError] and the
    [Response] helpers, together with the collaborators the pipeline is
    composed of: the circuit breaker ([gobreaker.Execute]), the retry loop
    ([backoff.Retry] over [backoff.WithContext]), the transport
    ([http.Client.Do]), the trace span and the logger.

    Time is an integer number of nanoseconds, as [time.Duration] is.  The
    transport, the JSON encoder and the request constructor are external:
    they are the fields of [Env].  The retry policy is the interface
    [backoff.BackOff], a type class here. *)

From Stdlib Require Import ZArith List Bool Lia.
From Stdlib.Strings Require Import String Ascii Byte.
From Stdlib Require Import DecimalString.
Import ListNotations.
Local Open Scope string_scope.
Local Open Scope Z_scope.

Definition Time := Z.
Definition Duration := Z.
Definition Millisecond : Duration := 1000000.
Definition Second : Duration := 1000 * Millisecond.

(** [%d] of [fmt]: the decimal digits of an [int], with a minus sign. *)
Definition itoa (n : Z) : string := NilZero.string_of_int (Z.to_int n).

(** ** Go error values *)

(** An [error] is what [errors.New] or [fmt.Errorf] without [%w] builds
    ([errorString]), what [fmt.Errorf("prefix%w", err)] builds ([wrapError],
    keeping the text before the verb) or [backoff.PermanentError]. *)
Inductive error : Type :=
| errorString (s : string)
| wrapError (prefix : string) (err : error)
| PermanentError (Err : error).

(** The [Error()] method. *)
Fixpoint Error (e : error) : string :=
  match e with
  | errorString s => s
  | wrapError prefix err => prefix ++ Error err
  | PermanentError Err => Error Err
  end.

(** [errors.As(err, &permanent)] for [permanent *PermanentError]: the first
    permanent error on the [Unwrap] chain; the caller reads its [Err]. *)
Fixpoint As_PermanentError (e : error) : option error :=
  match e with
  | errorString _ => None
  | wrapError _ err => As_PermanentError err
  | PermanentError Err => Some Err
  end.

(** ** context.Context *)

Module context.

Inductive cause := Canceled | DeadlineExceeded.

Definition cause_error (c : cause) : error :=
  match c with
  | Canceled => errorString "context canceled"
  | DeadlineExceeded => errorString "context deadline exceeded"
  end.

(** A context is done from one instant on, for one cause; a context that
    is never done is [context.Background()]. *)
Record Context := { doneAt : option (Time * cause) }.

Definition Background : Context := {| doneAt := None |}.

(** [ctx.Err()] read at time [now]. *)
Definition Err (ctx : Context) (now : Time) : option error :=
  match doneAt ctx with
  | Some (t, c) => if t <=? now then Some (cause_error c) else None
  | None => None
  end.

End context.

(** ** github.com/sony/gobreaker v1.0.0

    The breaker [New] builds with [gobreaker.NewCircuitBreaker]: closed,
    open for a cooldown, half-open for a bounded number of probes.  Its
    clock is the instant passed to each function. *)

Module gobreaker.

Inductive State := StateClosed | StateHalfOpen | StateOpen.

Definition State_eqb (a b : State) : bool :=
  match a, b with
  | StateClosed, StateClosed | StateHalfOpen, StateHalfOpen
  | StateOpen, StateOpen => true
  | _, _ => false
  end.

Definition uint32 (n : Z) : Z := n mod 2 ^ 32.
Definition uint64 (n : Z) : Z := n mod 2 ^ 64.

Record Counts := {
  Requests : Z;
  TotalSuccesses : Z;
  TotalFailures : Z;
  ConsecutiveSuccesses : Z;
  ConsecutiveFailures : Z
}.

Definition Counts_clear : Counts := Build_Counts 0 0 0 0 0.

Definition Counts_onRequest (c : Counts) : Counts :=
  Build_Counts (uint32 (Requests c + 1)) (TotalSuccesses c) (TotalFailures c)
               (ConsecutiveSuccesses c) (ConsecutiveFailures c).

Definition Counts_onSuccess (c : Counts) : Counts :=
  Build_Counts (Requests c) (uint32 (TotalSuccesses c + 1)) (TotalFailures c)
               (uint32 (ConsecutiveSuccesses c + 1)) 0.

Definition Counts_onFailure (c : Counts) : Counts :=
  Build_Counts (Requests c) (TotalSuccesses c) (uint32 (TotalFailures c + 1))
               0 (uint32 (ConsecutiveFailures c + 1)).

(** The fields [NewCircuitBreaker] fixes. *)
Record Settings := {
  maxRequests : Z;
  interval : Duration;
  timeout : Duration;
  readyToTrip : Counts -> bool
}.

(** The mutable part of a breaker; [expiry = None] is the zero
    [time.Time], and [changes] lists the calls of [OnStateChange], oldest
    first (the client logs each one). *)
Record CircuitBreaker := {
  state : State;
  generation : Z;
  counts : Counts;
  expiry : option Time;
  changes : list (State * State)
}.

Definition ErrOpenState : error := errorString "circuit breaker is open".
Definition ErrTooManyRequests : error := errorString "too many requests".

Section Breaker.
Variable st : Settings.

Definition toNewGeneration (cb : CircuitBreaker) (now : Time)
  : CircuitBreaker :=
  {| state := state cb;
     generation := uint64 (generation cb + 1);
     counts := Counts_clear;
     expiry :=
       match state cb with
       | StateClosed =>
           if interval st =? 0 then None else Some (now + interval st)
       | StateOpen => Some (now + timeout st)
       | StateHalfOpen => None
       end;
     changes := changes cb |}.

Definition setState (cb : CircuitBreaker) (s : State) (now : Time)
  : CircuitBreaker :=
  if State_eqb (state cb) s then cb
  else
    let prev := state cb in
    let cb1 := toNewGeneration
                 {| state := s; generation := generation cb;
                    counts := counts cb; expiry := expiry cb;
                    changes := changes cb |} now in
    {| state := state cb1; generation := generation cb1;
       counts := counts cb1; expiry := expiry cb1;
       changes := (changes cb1 ++ [(prev, s)])%list |}.

(** [t.Before(now)]; the zero time is before every instant of a run. *)
Definition Before (t : option Time) (now : Time) : bool :=
  match t with
  | None => true
  | Some t => t <? now
  end.

Definition IsZero (t : option Time) : bool :=
  match t with None => true | Some _ => false end.

Definition currentState (cb : CircuitBreaker) (now : Time)
  : CircuitBreaker :=
  match state cb with
  | StateClosed =>
      if negb (IsZero (expiry cb)) && Before (expiry cb) now
      then toNewGeneration cb now else cb
  | StateOpen =>
      if Before (expiry cb) now then setState cb StateHalfOpen now else cb
  | StateHalfOpen => cb
  end.

Definition beforeRequest (cb : CircuitBreaker) (now : Time)
  : CircuitBreaker * Z * option error :=
  let cb1 := currentState cb now in
  match state cb1 with
  | StateOpen => (cb1, generation cb1, Some ErrOpenState)
  | StateHalfOpen =>
      if maxRequests st <=? Requests (counts cb1)
      then (cb1, generation cb1, Some ErrTooManyRequests)
      else ({| state := state cb1; generation := generation cb1;
               counts := Counts_onRequest (counts cb1);
               expiry := expiry cb1; changes := changes cb1 |},
            generation cb1, None)
  | StateClosed =>
      ({| state := state cb1; generation := generation cb1;
          counts := Counts_onRequest (counts cb1);
          expiry := expiry cb1; changes := changes cb1 |},
       generation cb1, None)
  end.

Definition with_counts (cb : CircuitBreaker) (c : Counts) : CircuitBreaker :=
  {| state := state cb; generation := generation cb; counts := c;
     expiry := expiry cb; changes := changes cb |}.

Definition onSuccess (cb : CircuitBreaker) (s : State) (now : Time)
  : CircuitBreaker :=
  match s with
  | StateClosed => with_counts cb (Counts_onSuccess (counts cb))
  | StateHalfOpen =>
      let cb1 := with_counts cb (Counts_onSuccess (counts cb)) in
      if maxRequests st <=? ConsecutiveSuccesses (counts cb1)
      then setState cb1 StateClosed now else cb1
  | StateOpen => cb
  end.

Definition onFailure (cb : CircuitBreaker) (s : State) (now : Time)
  : CircuitBreaker :=
  match s with
  | StateClosed =>
      let cb1 := with_counts cb (Counts_onFailure (counts cb)) in
      if readyToTrip st (counts cb1) then setState cb1 StateOpen now
      else cb1
  | StateHalfOpen => setState cb StateOpen now
  | StateOpen => cb
  end.

Definition afterRequest (cb : CircuitBreaker) (before : Z)
           (success : bool) (now : Time) : CircuitBreaker :=
  let cb1 := currentState cb now in
  if negb (generation cb1 =? before) then cb1
  else if success then onSuccess cb1 (state cb1) now
       else onFailure cb1 (state cb1) now.

(** The breaker is open at [now] and its cooldown has not run out. *)
Definition rejects (cb : CircuitBreaker) (now : Time) : Prop :=
  state cb = StateOpen /\ Before (expiry cb) now = false.

End Breaker.

(** [NewCircuitBreaker]: zero or negative settings take the defaults. *)
Definition NewCircuitBreaker (MaxRequests : Z) (Interval Timeout : Duration)
           (ReadyToTrip : option (Counts -> bool)) (now : Time)
  : Settings * CircuitBreaker :=
  let st := {| maxRequests := if MaxRequests =? 0 then 1 else MaxRequests;
               interval := if Interval <=? 0 then 0 else Interval;
               timeout := if Timeout <=? 0 then 60 * Second else Timeout;
               readyToTrip :=
                 match ReadyToTrip with
                 | Some f => f
                 | None => fun c => 5 <? ConsecutiveFailures c
                 end |} in
  (st, toNewGeneration st
         {| state := StateClosed; generation := 0; counts := Counts_clear;
            expiry := None; changes := [] |} now).

End gobreaker.

(** ** github.com/cenkalti/backoff/v4 v4.3.0

    What [doRequest] uses of the library: the policy interface,
    [Permanent], [WithContext] and, further down, the loop of [Retry]. *)

Module backoff.

Definition Stop : Duration := -1.

(** The interface [backoff.BackOff].  An implementation reads its clock,
    hence the instant passed to both methods; whatever it draws at random
    is part of its state [B]. *)
Class BackOff (B : Type) := {
  NextBackOff : B -> Time -> Duration * B;
  Reset : B -> Time -> B
}.

(** [backoff.Permanent]. *)
Definition Permanent (err : option error) : option error :=
  match err with
  | None => None
  | Some e => Some (PermanentError e)
  end.

(** [NextBackOff] of the policy [backoff.WithContext(b, ctx)]. *)
Definition WithContext_NextBackOff {B : Type} `{BackOff B}
           (ctx : context.Context) (b : B) (now : Time) : Duration * B :=
  match context.Err ctx now with
  | Some _ => (Stop, b)
  | None => NextBackOff b now
  end.

(** The [select] of the retry loop on [ctx.Done()] and a timer of [next]
    started at [now]: the instant at which it returns, and [ctx.Err()] when
    the context won. *)
Definition wait (ctx : context.Context) (now : Time) (next : Duration)
  : Time * option error :=
  match context.doneAt ctx with
  | Some (t, c) =>
      if t <? now + Z.max 0 next
      then (Z.max now t, Some (context.cause_error c))
      else (now + Z.max 0 next, None)
  | None => (now + Z.max 0 next, None)
  end.

End backoff.

(** ** net/http, the span and the logger *)

Definition Header := list (string * list string).

(** What [doRequest] hands to the transport.  [ReqBody] is the slice under
    the [bytes.Reader] ([None] without a body); the reader's position is
    [offset] of the [State]. *)
Record Request := {
  Method : string;
  URL : string;
  ReqHeader : Header;
  ReqBody : option (list byte)
}.

(** A response as the closure sees it: status, headers and the result of
    [io.ReadAll(httpResp.Body)]. *)
Record HTTPResponse := {
  http_StatusCode : Z;
  http_Header : Header;
  http_Body : list byte + error
}.

(** One call of [httpClient.Do]: how long it took, how many bytes it read
    from the request body, and what it returned. *)
Record RoundTrip := {
  took : Duration;
  consumed : nat;
  outcome : HTTPResponse + error
}.

(** The text of one double quote. *)
Definition dquote : string := String (ascii_of_nat 34) EmptyString.

(** A [*url.Error], the only kind of error [http.Client.Do] returns: its
    [Error()] is the operation, the quoted URL, a colon and the text of
    the cause, and [Unwrap] gives the cause.  [URL] is the text between
    the quotes. *)
Definition urlError (Op URL : string) (Err : error) : error :=
  wrapError (Op ++ " " ++ dquote ++ URL ++ dquote ++ ": ") Err.

Module codes.
Inductive Code := Unset | Error | Ok.
End codes.

Inductive AttrValue := AttrString (s : string) | AttrInt (n : Z).

Record Span := {
  spanName : string;
  attributes : list (string * AttrValue);
  recorded : list error;
  status : codes.Code * string;
  ended : bool
}.

Inductive Level := DebugLevel | ErrorLevel.

Inductive Field :=
| zapString (key val : string)
| zapInt (key : string) (val : Z)
| zapError (err : error)
| zapAny (key : string) (val : Header).

Record Entry := { level : Level; msg : string; fields : list Field }.

(** Response wraps an HTTP response with body. *)
Record Response := {
  StatusCode : Z;
  Headers : Header;
  Body : list byte
}.

(** IsSuccess returns true if status code is 2xx. *)
Definition IsSuccess (r : Response) : bool :=
  (200 <=? StatusCode r) && (StatusCode r <? 300).

(** isRetryableError determines if an error should be retried. *)
Definition isRetryableError (err : option error) : bool :=
  match err with
  | None => false
  | Some e =>
      if (Error e =? "context deadline exceeded")%string
         || (Error e =? "context canceled")%string
         || (Error e =? "connection refused")%string
         || (Error e =? "connection reset")%string
      then true
      else false
  end.

(** The immutable fields of [Client] that the pipeline reads.  The mutable
    halves of [circuitBreaker] and [retryBackoff] are in the [State]. *)
Record Client := {
  baseURL : string;
  circuitBreaker : gobreaker.Settings;
  serviceName : string
}.

(** What a call can change, and the trace of what it did: [trips] lists the
    calls of [httpClient.Do] made so far (the bytes each one read from the
    body reader of the request and what came back) and [iterations] counts
    the runs of the retried closure. *)
Record State (B : Type) := {
  clock : Time;
  breaker : gobreaker.CircuitBreaker;
  retryBackoff : B;
  offset : nat;
  span : Span;
  logs : list Entry;
  resp : option Response;
  trips : list (list byte * RoundTrip);
  iterations : nat
}.

Arguments clock {B} _.
Arguments breaker {B} _.
Arguments retryBackoff {B} _.
Arguments offset {B} _.
Arguments span {B} _.
Arguments logs {B} _.
Arguments resp {B} _.
Arguments trips {B} _.
Arguments iterations {B} _.
Arguments Build_State {B} _ _ _ _ _ _ _ _ _.

(** The external collaborators: [json.Marshal] on values of type [V], the
    error of [http.NewRequestWithContext] for a method and a URL,
    [textproto.CanonicalMIMEHeaderKey], and [httpClient.Do], which answers
    the [n]-th call of the run given the request and the bytes its body
    reader still holds.  The record does not say which errors [Do] may
    return; that every one of them is a [*url.Error] is the predicate
    [returnsURLErrors] below, assumed where a statement depends on it. *)
Record Env (V : Type) := {
  json_Marshal : V -> list byte + error;
  NewRequest_err : string -> string -> option error;
  CanonicalMIMEHeaderKey : string -> string;
  Do : nat -> Request -> list byte -> RoundTrip
}.

Arguments json_Marshal {V} _ _.
Arguments NewRequest_err {V} _ _ _.
Arguments CanonicalMIMEHeaderKey {V} _ _.
Arguments Do {V} _ _ _ _.

(** How a Go function returning a [Response] pointer and an [error] stops:
    it returns its two values, or it panics. *)
Inductive Return :=
| Returns (resp : option Response) (err : option error)
| Panics.

(** ** The pipeline *)

Section Pipeline.

Context {B : Type} {policy : backoff.BackOff B} {V : Type}.
Variable env : Env V.
Variable c : Client.

Local Abbreviation St := (State B).

Definition set_clock (t : Time) (s : St) : St :=
  Build_State t (breaker s) (retryBackoff s) (offset s) (span s) (logs s)
              (resp s) (trips s) (iterations s).

Definition set_breaker (cb : gobreaker.CircuitBreaker) (s : St) : St :=
  Build_State (clock s) cb (retryBackoff s) (offset s) (span s) (logs s)
              (resp s) (trips s) (iterations s).

Definition set_retryBackoff (b : B) (s : St) : St :=
  Build_State (clock s) (breaker s) b (offset s) (span s) (logs s)
              (resp s) (trips s) (iterations s).

Definition set_offset (n : nat) (s : St) : St :=
  Build_State (clock s) (breaker s) (retryBackoff s) n (span s) (logs s)
              (resp s) (trips s) (iterations s).

Definition set_span (sp : Span) (s : St) : St :=
  Build_State (clock s) (breaker s) (retryBackoff s) (offset s) sp (logs s)
              (resp s) (trips s) (iterations s).

Definition set_resp (r : option Response) (s : St) : St :=
  Build_State (clock s) (breaker s) (retryBackoff s) (offset s) (span s)
              (logs s) r (trips s) (iterations s).

Definition log (e : Entry) (s : St) : St :=
  Build_State (clock s) (breaker s) (retryBackoff s) (offset s) (span s)
              (logs s ++ [e])%list (resp s) (trips s) (iterations s).

Definition add_trip (t : list byte * RoundTrip) (s : St) : St :=
  Build_State (clock s) (breaker s) (retryBackoff s) (offset s) (span s)
              (logs s) (resp s) (trips s ++ [t])%list (iterations s).

Definition tick (s : St) : St :=
  Build_State (clock s) (breaker s) (retryBackoff s) (offset s) (span s)
              (logs s) (resp s) (trips s) (S (iterations s)).

(** The span methods the pipeline calls. *)
Definition tracer_Start (name : string) (attrs : list (string * AttrValue))
  : Span :=
  {| spanName := name; attributes := attrs; recorded := [];
     status := (codes.Unset, ""); ended := false |}.

Definition RecordError (err : error) (s : St) : St :=
  set_span {| spanName := spanName (span s);
              attributes := attributes (span s);
              recorded := (recorded (span s) ++ [err])%list;
              status := status (span s); ended := ended (span s) |} s.

Definition SetStatus (code : codes.Code) (description : string) (s : St)
  : St :=
  set_span {| spanName := spanName (span s);
              attributes := attributes (span s);
              recorded := recorded (span s);
              status := (code, description); ended := ended (span s) |} s.

Definition SetAttributes (kv : list (string * AttrValue)) (s : St) : St :=
  set_span {| spanName := spanName (span s);
              attributes := (attributes (span s) ++ kv)%list;
              recorded := recorded (span s);
              status := status (span s); ended := ended (span s) |} s.

Definition End_ (s : St) : St :=
  set_span {| spanName := spanName (span s);
              attributes := attributes (span s);
              recorded := recorded (span s);
              status := status (span s); ended := true |} s.

(** [Header.Set]: the canonical key now has the one value. *)
Definition Header_Set (h : Header) (key value : string) : Header :=
  let k := CanonicalMIMEHeaderKey env key in
  (k, [value])
    :: filter (fun kv => negb (String.eqb (fst kv) k)) h.

(** The bytes the body reader of [req] still holds at offset [n]. *)
Definition unread (req : Request) (n : nat) : list byte :=
  match ReqBody req with
  | Some b => skipn n b
  | None => []
  end.

(** The function passed to [circuitBreaker.Execute]: one transport call,
    the body read, the status check. *)
Definition roundTrip (req : Request) (s : St)
  : (option Response * option error) * St :=
  let avail := unread req (offset s) in
  let rt := Do env (List.length (trips s)) req avail in
  let sent := firstn (consumed rt) avail in
  let s1 := add_trip (sent, rt)
              (set_offset (offset s + List.length sent)%nat
                 (set_clock (clock s + took rt) s)) in
  match outcome rt with
  | inr err => ((None, Some err), RecordError err s1)
  | inl httpResp =>
      match http_Body httpResp with
      | inr readErr => ((None, Some (wrapError "read response: " readErr)), s1)
      | inl respBody =>
          if (500 <=? http_StatusCode httpResp)
             || (http_StatusCode httpResp =? 429)
          then ((None,
                 Some (errorString
                         ("retryable status " ++ itoa (http_StatusCode httpResp)
                          ++ ": " ++ string_of_list_byte respBody))), s1)
          else
            let r := {| StatusCode := http_StatusCode httpResp;
                        Headers := http_Header httpResp;
                        Body := respBody |} in
            ((Some r, None), set_resp (Some r) s1)
      end
  end.

(** [CircuitBreaker.Execute], with the default [isSuccessful]. *)
Definition Execute (req : St -> (option Response * option error) * St)
           (s : St) : (option Response * option error) * St :=
  let '(cb1, generation, err) :=
    gobreaker.beforeRequest (circuitBreaker c) (breaker s) (clock s) in
  let s1 := set_breaker cb1 s in
  match err with
  | Some e => ((None, Some e), s1)
  | None =>
      let '((result, err), s2) := req s1 in
      let success := match err with None => true | Some _ => false end in
      ((result, err),
       set_breaker
         (gobreaker.afterRequest (circuitBreaker c) (breaker s2) generation
                                 success (clock s2)) s2)
  end.

(** The closure passed to [backoff.Retry]. *)
Definition operation (req : Request) (s : St) : option error * St :=
  let '((result, err), s1) := Execute (roundTrip req) (tick s) in
  match err with
  | Some e =>
      if negb (isRetryableError (Some e))
      then (backoff.Permanent (Some e), s1)
      else (Some e, s1)
  | None => (None, set_resp result s1)
  end.

(** The loop of [backoff.Retry] after [b.Reset()]; [None] when [fuel]
    iterations did not end it. *)
Fixpoint RetryLoop (fuel : nat) (op : St -> option error * St)
         (ctx : context.Context) (s : St) : option (option error * St) :=
  match fuel with
  | O => None
  | S fuel' =>
      let '(err, s1) := op s in
      match err with
      | None => Some (None, s1)
      | Some e =>
          match As_PermanentError e with
          | Some perr => Some (Some perr, s1)
          | None =>
              let '(next, b) :=
                backoff.WithContext_NextBackOff ctx (retryBackoff s1)
                                                (clock s1) in
              let s2 := set_retryBackoff b s1 in
              if next =? backoff.Stop
              then match context.Err ctx (clock s2) with
                   | Some cerr => Some (Some cerr, s2)
                   | None => Some (Some e, s2)
                   end
              else
                match backoff.wait ctx (clock s2) next with
                | (t, Some cerr) => Some (Some cerr, set_clock t s2)
                | (t, None) => RetryLoop fuel' op ctx (set_clock t s2)
                end
          end
      end
  end.

Definition Retry (fuel : nat) (op : St -> option error * St)
           (ctx : context.Context) (s : St) : option (option error * St) :=
  RetryLoop fuel op ctx
            (set_retryBackoff (backoff.Reset (retryBackoff s) (clock s)) s).

(** [doRequest] from the return of [backoff.Retry] to its own return,
    the deferred [span.End()] included.  Reading [resp.StatusCode] through
    a nil [resp] would panic. *)
Definition finish (method url : string) (r : option error * St)
  : Return * St :=
  let '(err, s) := r in
  match err with
  | Some e =>
      let s1 := SetStatus codes.Error (Error e) (RecordError e s) in
      let s2 := log {| level := ErrorLevel; msg := "service request failed";
                       fields := [zapString "method" method;
                                  zapString "url" url; zapError e] |} s1 in
      (Returns None (Some (wrapError "request failed: " e)), End_ s2)
  | None =>
      match resp s with
      | None => (Panics, End_ s)
      | Some r =>
          let s1 := log {| level := DebugLevel; msg := "service response";
                           fields := [zapString "method" method;
                                      zapString "url" url;
                                      zapInt "status" (StatusCode r)] |} s in
          let s2 := SetAttributes
                      [("http.status_code", AttrInt (StatusCode r))] s1 in
          let s3 := if 400 <=? StatusCode r
                    then SetStatus codes.Error ("HTTP " ++ itoa (StatusCode r))
                                   s2
                    else SetStatus codes.Ok "success" s2 in
          (Returns (Some r) None, End_ s3)
      end
  end.

(** A call from the start of any iteration of the retry loop to the return
    of [doRequest]. *)
Definition resume (fuel : nat) (ctx : context.Context) (req : Request)
           (s : St) : option (Return * St) :=
  option_map (finish (Method req) (URL req))
             (RetryLoop fuel (operation req) ctx s).

(** The request [doRequest] builds: default headers, then the caller's, in
    the order the [range] over the map yields them. *)
Definition newRequest (method url : string) (bodyBytes : option (list byte))
           (headers : list (string * string)) : Request :=
  {| Method := method; URL := url;
     ReqHeader :=
       fold_left (fun h kv => Header_Set h (fst kv) (snd kv)) headers
                 (Header_Set (Header_Set [] "Content-Type" "application/json")
                             "Accept" "application/json");
     ReqBody := bodyBytes |}.

(** The body as [doRequest] prepares it: no reader for a nil body,
    otherwise the bytes of [json.Marshal] or its error. *)
Definition marshalBody (body : option V) : option (list byte) + error :=
  match body with
  | None => inl None
  | Some v =>
      match json_Marshal env v with
      | inl bodyBytes => inl (Some bodyBytes)
      | inr err => inr err
      end
  end.

(** [doRequest]: the span, the body, the request built once, the retry
    loop around the breaker, and the two return values.  [None] when the
    loop is still running after [fuel] iterations. *)
Definition doRequest (fuel : nat) (ctx : context.Context)
           (method path : string) (body : option V)
           (headers : list (string * string)) (s : St)
  : option (Return * St) :=
  let s0 := set_span
              (tracer_Start (method ++ " " ++ path)
                 [("http.method", AttrString method);
                  ("http.url", AttrString (baseURL c ++ path));
                  ("service.name", AttrString (serviceName c))]) s in
  match marshalBody body with
  | inr err =>
      Some (Returns None (Some (wrapError "marshal request body: " err)),
            End_ (SetStatus codes.Error (Error err) (RecordError err s0)))
  | inl bodyBytes =>
      let url := baseURL c ++ path in
      match NewRequest_err env method url with
      | Some err =>
          Some (Returns None (Some (wrapError "create request: " err)),
                End_ (SetStatus codes.Error (Error err) (RecordError err s0)))
      | None =>
          let req := newRequest method url bodyBytes headers in
          let s1 := log {| level := DebugLevel; msg := "service request";
                           fields := [zapString "method" method;
                                      zapString "url" url;
                                      zapAny "headers" (ReqHeader req)] |}
                        (set_offset 0 s0) in
          let s2 := set_resp None s1 in
          option_map (finish method url)
                     (Retry fuel (operation req) ctx s2)
      end
  end.

(** Get performs a GET request with retry and circuit breaker. *)
Definition Get (fuel : nat) (ctx : context.Context) (path : string)
           (headers : list (string * string)) (s : St) :=
  doRequest fuel ctx "GET" path None headers s.

(** Post performs a POST request with retry and circuit breaker. *)
Definition Post (fuel : nat) (ctx : context.Context) (path : string)
           (body : option V) (headers : list (string * string)) (s : St) :=
  doRequest fuel ctx "POST" path body headers s.

(** Put performs a PUT request with retry and circuit breaker. *)
Definition Put (fuel : nat) (ctx : context.Context) (path : string)
           (body : option V) (headers : list (string * string)) (s : St) :=
  doRequest fuel ctx "PUT" path body headers s.

(** Patch performs a PATCH request with retry and circuit breaker. *)
Definition Patch (fuel : nat) (ctx : context.Context) (path : string)
           (body : option V) (headers : list (string * string)) (s : St) :=
  doRequest fuel ctx "PATCH" path body headers s.

(** Delete performs a DELETE request with retry and circuit breaker. *)
Definition Delete (fuel : nat) (ctx : context.Context) (path : string)
           (headers : list (string * string)) (s : St) :=
  doRequest fuel ctx "DELETE" path None headers s.

End Pipeline.

(** ** Construction *)

Section Construction.

(** [client.go] only stores and copies [float64] values, loggers and the
    tracer: the type [float64] with the two literals of [DefaultConfig],
    and [zap.Logger] with [zap.NewNop()], are parameters. *)
Variable float64 : Type.
Variable float64_2_0 : float64.
Variable float64_0_5 : float64.
Variable zapLogger : Type.
Variable NewNop : zapLogger.

(** Config configures a service client. *)
Record Config := {
  BaseURL : string;
  ServiceName : string;
  Timeout : Duration;
  Logger : option zapLogger;
  MaxRequests : Z;
  Interval : Duration;
  TimeoutCB : Duration;
  ReadyToTrip : option (gobreaker.Counts -> bool);
  InitialInterval : Duration;
  MaxInterval : Duration;
  MaxElapsedTime : Duration;
  Multiplier : float64;
  RandomizationFactor : float64
}.

(** DefaultConfig returns a config with sensible defaults. *)
Definition DefaultConfig (baseURL serviceName : string)
           (logger : option zapLogger) : Config :=
  {| BaseURL := baseURL;
     ServiceName := serviceName;
     Timeout := 10 * Second;
     Logger := logger;
     MaxRequests := 3;
     Interval := 60 * Second;
     TimeoutCB := 30 * Second;
     ReadyToTrip :=
       Some (fun counts => 5 <? gobreaker.ConsecutiveFailures counts);
     InitialInterval := 100 * Millisecond;
     MaxInterval := 5 * Second;
     MaxElapsedTime := 30 * Second;
     Multiplier := float64_2_0;
     RandomizationFactor := float64_0_5 |}.

(** [backoff.ExponentialBackOff] as [New] leaves it: the five settings,
    and the interval and start time that [NewExponentialBackOff] set when
    it reset the policy under the library's own initial interval. *)
Record ExponentialBackOff := {
  eb_InitialInterval : Duration;
  eb_RandomizationFactor : float64;
  eb_Multiplier : float64;
  eb_MaxInterval : Duration;
  eb_MaxElapsedTime : Duration;
  currentInterval : Duration;
  startTime : Time
}.

(** The logger [New] derives: [Named("service-client")] and
    [With(zap.String("service", name))] on the configured one. *)
Record ClientLogger := {
  parent : zapLogger;
  named : string;
  withFields : list Field
}.

(** What [New] builds at the instant [now]: the fields of the [Client],
    and the [Config] behind the caller's pointer, into which [New] writes
    the logger and the service name it falls back to. *)
Record Built := {
  newConfig : Config;
  newClient : Client;
  newHTTPTimeout : Duration;
  newBreaker : gobreaker.CircuitBreaker;
  newRetryBackoff : ExponentialBackOff;
  newTracer : string;
  newLogger : ClientLogger
}.

(** New creates a new service client with the provided configuration. *)
Definition New (cfg : Config) (now : Time) : Built :=
  let logger := match Logger cfg with
                | None => NewNop
                | Some l => l
                end in
  let name := if (ServiceName cfg =? "")%string
              then "unknown-service" else ServiceName cfg in
  let cb := gobreaker.NewCircuitBreaker (MaxRequests cfg) (Interval cfg)
                                        (TimeoutCB cfg) (ReadyToTrip cfg)
                                        now in
  {| newConfig :=
       {| BaseURL := BaseURL cfg;
          ServiceName := name;
          Timeout := Timeout cfg;
          Logger := Some logger;
          MaxRequests := MaxRequests cfg;
          Interval := Interval cfg;
          TimeoutCB := TimeoutCB cfg;
          ReadyToTrip := ReadyToTrip cfg;
          InitialInterval := InitialInterval cfg;
          MaxInterval := MaxInterval cfg;
          MaxElapsedTime := MaxElapsedTime cfg;
          Multiplier := Multiplier cfg;
          RandomizationFactor := RandomizationFactor cfg |};
     newClient := {| baseURL := BaseURL cfg;
                     circuitBreaker := fst cb;
                     serviceName := name |};
     newHTTPTimeout := Timeout cfg;
     newBreaker := snd cb;
     newRetryBackoff :=
       {| eb_InitialInterval := InitialInterval cfg;
          eb_RandomizationFactor := RandomizationFactor cfg;
          eb_Multiplier := Multiplier cfg;
          eb_MaxInterval := MaxInterval cfg;
          eb_MaxElapsedTime := MaxElapsedTime cfg;
          currentInterval := 500 * Millisecond;
          startTime := now |};
     newTracer := "shared-service-client";
     newLogger := {| parent := logger; named := "service-client";
                     withFields := [zapString "service" name] |} |}.

End Construction.

Arguments DefaultConfig {float64} _ _ {zapLogger} _ _ _.
Arguments New {float64 zapLogger} _ _ _.
Arguments newConfig {float64 zapLogger} _.
Arguments newClient {float64 zapLogger} _.
Arguments newBreaker {float64 zapLogger} _.
Arguments newRetryBackoff {float64 zapLogger} _.
Arguments newLogger {float64 zapLogger} _.
Arguments ServiceName {float64 zapLogger} _.
Arguments Logger {float64 zapLogger} _.
Arguments MaxElapsedTime {float64 zapLogger} _.

(** ** Concrete collaborators *)

Module Scenario.

(** A policy that hands out the delays of one run of the jittered
    exponential policy, then stops. *)
Record Delays := { pending : list Duration }.

#[export] Instance Delays_BackOff : backoff.BackOff Delays := {
  NextBackOff b _ :=
    match pending b with
    | [] => (backoff.Stop, b)
    | d :: rest => (d, {| pending := rest |})
    end;
  Reset b _ := b
}.

(** Request bodies: JSON text that encodes as itself, or a channel, which
    [json.Marshal] refuses. *)
Inductive value := RawMessage (json : string) | Chan.

Definition Marshal (v : value) : list byte + error :=
  match v with
  | RawMessage json => inl (list_byte_of_string json)
  | Chan => inr (errorString "json: unsupported type: chan int")
  end.

Definition env (transport : nat -> Request -> list byte -> RoundTrip)
  : Env value :=
  {| json_Marshal := Marshal;
     NewRequest_err := fun _ _ => None;
     CanonicalMIMEHeaderKey := fun k => k;
     Do := transport |}.

(** The breaker settings [DefaultConfig] gives to [New]. *)
Definition settings : gobreaker.Settings :=
  fst (gobreaker.NewCircuitBreaker 3 (60 * Second) (30 * Second)
         (Some (fun counts => 5 <? gobreaker.ConsecutiveFailures counts)) 0).

Definition client : Client :=
  {| baseURL := "http://auth-api:4101"; circuitBreaker := settings;
     serviceName := "auth-service" |}.

(** A client just built, at time 0, with two jittered delays to hand out. *)
Definition fresh : State Delays :=
  {| clock := 0;
     breaker := snd (gobreaker.NewCircuitBreaker 3 (60 * Second) (30 * Second)
                       None 0);
     retryBackoff := {| pending := [137 * Millisecond; 268 * Millisecond] |};
     offset := 0;
     span := {| spanName := ""; attributes := []; recorded := [];
                status := (codes.Unset, ""); ended := false |};
     logs := []; resp := None; trips := []; iterations := 0 |}.

(** The same client with its breaker tripped at time 0. *)
Definition tripped : State Delays :=
  {| clock := 5 * Second;
     breaker := {| gobreaker.state := gobreaker.StateOpen;
                   gobreaker.generation := 2;
                   gobreaker.counts := gobreaker.Counts_clear;
                   gobreaker.expiry := Some (30 * Second);
                   gobreaker.changes :=
                     [(gobreaker.StateClosed, gobreaker.StateOpen)] |};
     retryBackoff := retryBackoff fresh; offset := 0; span := span fresh;
     logs := []; resp := None; trips := []; iterations := 0 |}.

Definition reply (code : Z) (body : string) : HTTPResponse :=
  {| http_StatusCode := code;
     http_Header := [("Content-Type", ["application/json"])];
     http_Body := inl (list_byte_of_string body) |}.

Definition answer (code : Z) (body : string) : RoundTrip :=
  {| took := 20 * Millisecond; consumed := 0; outcome := inl (reply code body) |}.

Definition quote : string := String (ascii_of_nat 34) EmptyString.

(** A target that answers 503 twice and then 200 with the body
    [{"ok":true}]. *)
Definition flaky (n : nat) (_ : Request) (_ : list byte) : RoundTrip :=
  match n with
  | O | S O => answer 503 "unavailable"
  | _ => answer 200 ("{" ++ quote ++ "ok" ++ quote ++ ":true}")
  end.

(** A target that answers every call with the given status. *)
Definition always (code : Z) (_ : nat) (_ : Request) (_ : list byte)
  : RoundTrip := answer code "".

Definition refused : error :=
  errorString "dial tcp 10.0.0.7:4101: connect: connection refused".

(** The request of [Get] for one user, as [doRequest] builds it. *)
Definition getUser : Request :=
  newRequest (env (always 200)) "GET" "http://auth-api:4101/api/v1/users/7"
             None [].

(** A target that cannot be reached. *)
Definition unreachable (_ : nat) (_ : Request) (_ : list byte) : RoundTrip :=
  {| took := 3 * Millisecond; consumed := 0;
     outcome := inr refused |}.

(** A response with status 200 whose body cannot be read to the end. *)
Definition cut : HTTPResponse :=
  {| http_StatusCode := 200; http_Header := [];
     http_Body := inr (errorString "connection reset") |}.

Definition truncated (_ : nat) (_ : Request) (_ : list byte) : RoundTrip :=
  {| took := 20 * Millisecond; consumed := 0; outcome := inl cut |}.

(** Collaborators whose request constructor cannot parse one URL. *)
Definition badEscape : error :=
  errorString ("parse " ++ quote ++ "http://auth-api:4101/%zz" ++ quote
               ++ ": invalid URL escape " ++ quote ++ "%zz" ++ quote).

Definition strict : Env value :=
  {| json_Marshal := Marshal;
     NewRequest_err :=
       fun _ url =>
         if (url =? "http://auth-api:4101/%zz")%string
         then Some badEscape else None;
     CanonicalMIMEHeaderKey := fun k => k;
     Do := always 200 |}.

(** The same client with its breaker half open and its three probes out. *)
Definition probing : State Delays :=
  {| clock := 40 * Second;
     breaker := {| gobreaker.state := gobreaker.StateHalfOpen;
                   gobreaker.generation := 3;
                   gobreaker.counts := gobreaker.Build_Counts 3 0 0 0 0;
                   gobreaker.expiry := None;
                   gobreaker.changes :=
                     [(gobreaker.StateClosed, gobreaker.StateOpen);
                      (gobreaker.StateOpen, gobreaker.StateHalfOpen)] |};
     retryBackoff := retryBackoff fresh; offset := 0; span := span fresh;
     logs := []; resp := None; trips := []; iterations := 0 |}.

(** A target that cannot be reached, as [httpClient.Do] reports it. *)
Definition refusing (_ : nat) (req : Request) (_ : list byte) : RoundTrip :=
  {| took := 3 * Millisecond; consumed := 0;
     outcome := inr (urlError "Get" (URL req) refused) |}.

(** A target that reads the whole request and drops the connection, as
    [httpClient.Do] reports it. *)
Definition dropping (_ : nat) (req : Request) (avail : list byte)
  : RoundTrip :=
  {| took := 20 * Millisecond; consumed := List.length avail;
     outcome := inr (urlError "Post" (URL req)
                              (errorString "connection reset")) |}.

(** A finite [float64] as a mantissa and a binary exponent. *)
Definition binary64 := (Z * Z)%type.

(** The configuration of [DefaultConfig] for the client of the scenarios,
    and what [New] builds from it at time 0. *)
Definition defaults : Config binary64 string :=
  DefaultConfig (1, 1) (1, -1) "http://auth-api:4101" "auth-service"
                (Some "zap").

Definition built : Built binary64 string := New "nop" defaults 0.

(** That client after five failures in a row, ten seconds on. *)
Definition strained : State Delays :=
  {| clock := 10 * Second;
     breaker := {| gobreaker.state := gobreaker.StateClosed;
                   gobreaker.generation := 1;
                   gobreaker.counts := gobreaker.Build_Counts 5 0 5 0 5;
                   gobreaker.expiry := Some (60 * Second);
                   gobreaker.changes := [] |};
     retryBackoff := retryBackoff fresh; offset := 0; span := span fresh;
     logs := []; resp := None; trips := []; iterations := 0 |}.

(** The client just built, before its first call. *)
Definition unused : State Delays :=
  {| clock := 2 * Second; breaker := newBreaker built;
     retryBackoff := retryBackoff fresh; offset := 0; span := span fresh;
     logs := []; resp := None; trips := []; iterations := 0 |}.

End Scenario.

(** ** Vocabulary of the statements *)

Section Vocabulary.

Context {B : Type} {V : Type}.
Variable env : Env V.
Variable c : Client.

(** The breaker lets the iteration that starts in state [s] through. *)
Definition admitted (s : State B) : Prop :=
  snd (gobreaker.beforeRequest (circuitBreaker c) (breaker s) (clock s))
  = None.

(** The transport call that iteration makes, and the bytes it sends. *)
Definition nextTrip (req : Request) (s : State B) : RoundTrip :=
  Do env (List.length (trips s)) req (unread req (offset s)).

Definition nextSent (req : Request) (s : State B) : list byte :=
  firstn (consumed (nextTrip req s)) (unread req (offset s)).

(** The response the closure builds from a transport response. *)
Definition asResponse (h : HTTPResponse) (body : list byte) : Response :=
  {| StatusCode := http_StatusCode h; Headers := http_Header h;
     Body := body |}.

(** The error the closure builds for a status of 500 and above or 429. *)
Definition statusError (h : HTTPResponse) (body : list byte) : error :=
  errorString ("retryable status " ++ itoa (http_StatusCode h) ++ ": "
               ++ string_of_list_byte body).

(** The last transport call of a run delivered the response [r] whole. *)
Definition deliveredLast (s : State B) (r : Response) : Prop :=
  exists sent rt h,
    last (map Some (trips s)) None = Some (sent, rt)
    /\ outcome rt = inl h
    /\ http_Body h = inl (Body r)
    /\ StatusCode r = http_StatusCode h
    /\ Headers r = http_Header h.

(** A call returned exactly one of a response and an error, and the
    response is the one its last transport call delivered. *)
Definition oneOfTwo (ret : Return) (s : State B) : Prop :=
  (exists e, ret = Returns None (Some e))
  \/ (exists r, ret = Returns (Some r) None /\ deliveredLast s r).

(** The span status and attribute that go with a returned response when
    only 2xx counts as Ok. *)
Definition spanFollowsSuccess (r : Response) (sp : Span) : Prop :=
  fst (status sp) = (if IsSuccess r then codes.Ok else codes.Error)
  /\ In ("http.status_code", AttrInt (StatusCode r)) (attributes sp).

(** The same with the threshold [doRequest] tests, 400. *)
Definition spanFollowsThreshold (r : Response) (sp : Span) : Prop :=
  status sp = (if 400 <=? StatusCode r
               then (codes.Error, "HTTP " ++ itoa (StatusCode r))
               else (codes.Ok, "success"))
  /\ In ("http.status_code", AttrInt (StatusCode r)) (attributes sp).

(** The bytes under the body reader of a request. *)
Definition bodyOf (req : Request) : list byte := unread req 0.

(** What has gone out by state [s'] since state [s]: the transport calls
    added, whose payloads continue the body where [s] had left it. *)
Definition continues (req : Request) (s s' : State B) : Prop :=
  exists added,
    trips s' = (trips s ++ added)%list
    /\ (firstn (offset s) (bodyOf req) ++ List.concat (map fst added))%list
       = firstn (offset s') (bodyOf req).

(** The breaker turns the iteration that starts in state [s] away with
    the error [e]. *)
Definition turnedAway (s : State B) (e : error) : Prop :=
  snd (gobreaker.beforeRequest (circuitBreaker c) (breaker s) (clock s))
  = Some e.

(** A transport call that failed with an error [isRetryableError]
    accepts. *)
Definition retried (t : list byte * RoundTrip) : Prop :=
  exists e, outcome (snd t) = inr e /\ isRetryableError (Some e) = true.

(** All the calls of a trace but its last were [retried]. *)
Definition onlyLastUnretried (l : list (list byte * RoundTrip)) : Prop :=
  l = [] \/ exists init final, l = (init ++ [final])%list /\ Forall retried init.

(** [h[key]] on a header map. *)
Definition Header_get (h : Header) (key : string) : option (list string) :=
  option_map snd (find (fun kv => String.eqb (fst kv) key) h).

(** The contract of [http.Client.Do]: whatever error it returns is a
    [*url.Error]. *)
Definition returnsURLErrors : Prop :=
  forall n req avail e,
    outcome (Do env n req avail) = inr e ->
    exists op url cause, e = urlError op url cause.

(** The text holds a double quote. *)
Fixpoint hasQuote (s : string) : bool :=
  match s with
  | EmptyString => false
  | String a rest => Ascii.eqb a (ascii_of_nat 34) || hasQuote rest
  end.

(** The bytes under the body reader [doRequest] builds. *)
Definition bytesOf (bodyBytes : option (list byte)) : list byte :=
  match bodyBytes with
  | Some b => b
  | None => []
  end.

(** The first call of [httpClient.Do] in a call of [doRequest] from state
    [s]: on the request [doRequest] builds, with the body reader at its
    start. *)
Definition firstTrip (method path : string) (bodyBytes : option (list byte))
           (headers : list (string * string)) (s : State B) : RoundTrip :=
  Do env (List.length (trips s))
     (newRequest env method (baseURL c ++ path) bodyBytes headers)
     (bytesOf bodyBytes).

(** A transport call that brought the response [h] with the body [b] read
    in full and a status below 500 other than 429. *)
Definition answered (t : list byte * RoundTrip) (h : HTTPResponse)
           (b : list byte) : Prop :=
  outcome (snd t) = inl h /\ http_Body h = inl b
  /\ http_StatusCode h < 500 /\ http_StatusCode h <> 429.

End Vocabulary.

(** * Properties *)

Section Properties.

Context {B : Type} {policy : backoff.BackOff B} {V : Type}.
Variable env : Env V.
Variable c : Client.

Lemma isRetryableError_status h body :
  isRetryableError (Some (statusError h body)) = false.
Proof. reflexivity. Qed.

Lemma isRetryableError_ErrOpenState :
  isRetryableError (Some gobreaker.ErrOpenState) = false.
Proof. reflexivity. Qed.

Lemma isRetryableError_read_response readErr :
  isRetryableError (Some (wrapError "read response: " readErr)) = false.
Proof. reflexivity. Qed.

(** An admitted iteration whose transport call brings a response with a
    status below 500 other than 429 ends the loop with that response. *)
Lemma operation_response req (s : State B) h body :
  admitted c s ->
  outcome (nextTrip env req s) = inl h ->
  http_Body h = inl body ->
  http_StatusCode h < 500 -> http_StatusCode h <> 429 ->
  exists s1,
    operation env c req s = (None, s1)
    /\ resp s1 = Some (asResponse h body)
    /\ trips s1 = (trips s ++ [(nextSent env req s, nextTrip env req s)])%list
    /\ iterations s1 = S (iterations s)
    /\ span s1 = span s /\ logs s1 = logs s.
Proof.
  unfold admitted, operation, Execute, nextTrip, nextSent.
  intros Hadm Hout Hbody Hlt Hne.
  destruct (gobreaker.beforeRequest _ _ _) as [[cb1 gen] err].
  simpl in Hadm. subst err.
  unfold roundTrip. simpl. rewrite Hout, Hbody.
  replace (500 <=? http_StatusCode h) with false by (symmetry; apply Z.leb_gt; lia).
  replace (http_StatusCode h =? 429) with false by (symmetry; apply Z.eqb_neq; lia).
  simpl. eexists. repeat split.
Qed.

(** The same iteration with a status of 500 and above or 429: the closure's
    error is not retryable, so the iteration reports it as permanent. *)
Lemma operation_status_error req (s : State B) h body :
  admitted c s ->
  outcome (nextTrip env req s) = inl h ->
  http_Body h = inl body ->
  500 <= http_StatusCode h \/ http_StatusCode h = 429 ->
  exists s1,
    operation env c req s = (Some (PermanentError (statusError h body)), s1)
    /\ trips s1 = (trips s ++ [(nextSent env req s, nextTrip env req s)])%list
    /\ iterations s1 = S (iterations s).
Proof.
  unfold admitted, operation, Execute, nextTrip, nextSent.
  intros Hadm Hout Hbody Hst.
  destruct (gobreaker.beforeRequest _ _ _) as [[cb1 gen] err].
  simpl in Hadm. subst err.
  unfold roundTrip. simpl. rewrite Hout, Hbody.
  replace ((500 <=? http_StatusCode h) || (http_StatusCode h =? 429))
    with true.
  - simpl. eexists. repeat split.
  - symmetry. apply orb_true_iff. destruct Hst as [Hst | Hst].
    + left. apply Z.leb_le. exact Hst.
    + right. apply Z.eqb_eq. exact Hst.
Qed.

(** The same iteration with an error of the transport. *)
Lemma operation_transport_error req (s : State B) e :
  admitted c s ->
  outcome (nextTrip env req s) = inr e ->
  exists s1,
    operation env c req s
    = (Some (if isRetryableError (Some e) then e else PermanentError e), s1)
    /\ trips s1 = (trips s ++ [(nextSent env req s, nextTrip env req s)])%list
    /\ iterations s1 = S (iterations s).
Proof.
  unfold admitted, operation, Execute, nextTrip, nextSent.
  intros Hadm Hout.
  destruct (gobreaker.beforeRequest _ _ _) as [[cb1 gen] err].
  simpl in Hadm. subst err.
  unfold roundTrip. cbn -[isRetryableError]. rewrite Hout.
  destruct (isRetryableError (Some e)); cbn; eexists; repeat split.
Qed.

Lemma beforeRequest_rejects st cb now :
  gobreaker.rejects cb now ->
  gobreaker.beforeRequest st cb now
  = (cb, gobreaker.generation cb, Some gobreaker.ErrOpenState).
Proof.
  intros [Hopen Hexp].
  unfold gobreaker.beforeRequest, gobreaker.currentState.
  rewrite Hopen, Hexp. rewrite Hopen. reflexivity.
Qed.

(** An iteration the open breaker turns away. *)
Lemma operation_rejected req (s : State B) :
  gobreaker.rejects (breaker s) (clock s) ->
  operation env c req s
  = (Some (PermanentError gobreaker.ErrOpenState),
     set_breaker (breaker s) (tick s)).
Proof.
  intros Hrej. unfold operation, Execute. simpl.
  rewrite (beforeRequest_rejects _ _ _ Hrej). reflexivity.
Qed.

(** A permanent error ends the loop at once, whatever fuel is left. *)
Lemma RetryLoop_permanent fuel op ctx (s s1 : State B) e :
  op s = (Some (PermanentError e), s1) ->
  RetryLoop (S fuel) op ctx s = Some (Some e, s1).
Proof. intros Hop. simpl. rewrite Hop. reflexivity. Qed.

(** A success ends it at once too. *)
Lemma RetryLoop_success_now fuel op ctx (s s1 : State B) :
  op s = (None, s1) ->
  RetryLoop (S fuel) op ctx s = Some (None, s1).
Proof. intros Hop. simpl. rewrite Hop. reflexivity. Qed.

(** [doRequest], once the request is built, is the retry loop from the
    state the prologue leaves, followed by [finish]. *)
Lemma doRequest_resume fuel ctx method path body headers (s : State B)
      bodyBytes :
  marshalBody env body = inl bodyBytes ->
  NewRequest_err env method (baseURL c ++ path) = None ->
  exists s1,
    doRequest env c fuel ctx method path body headers s
    = resume env c fuel ctx
             (newRequest env method (baseURL c ++ path) bodyBytes headers) s1
    /\ trips s1 = trips s /\ iterations s1 = iterations s
    /\ clock s1 = clock s /\ breaker s1 = breaker s /\ offset s1 = 0%nat
    /\ retryBackoff s1 = backoff.Reset (retryBackoff s) (clock s).
Proof.
  intros Hm Hn. unfold doRequest, resume, Retry. rewrite Hm, Hn.
  eexists. split; [reflexivity|]. simpl. repeat split.
Qed.

(** ** Status classification *)

(** C1, as the code has it.  An admitted attempt whose response has a
    status of 500 and above or 429 yields an error that
    [isRetryableError] does not accept, so the iteration makes it
    permanent: the call returns that error after this one attempt and no
    further attempt is made, whatever the retry budget. *)
Theorem server_error_status_not_retried
        fuel ctx req (s : State B) h body :
  admitted c s ->
  outcome (nextTrip env req s) = inl h ->
  http_Body h = inl body ->
  500 <= http_StatusCode h \/ http_StatusCode h = 429 ->
  isRetryableError (Some (statusError h body)) = false
  /\ exists s',
      resume env c (S fuel) ctx req s
      = Some (Returns None
                (Some (wrapError "request failed: " (statusError h body))),
              s')
      /\ trips s'
         = (trips s ++ [(nextSent env req s, nextTrip env req s)])%list
      /\ iterations s' = S (iterations s).
Proof.
  intros Hadm Hout Hbody Hst. split; [reflexivity|].
  destruct (operation_status_error req s h body Hadm Hout Hbody Hst)
    as (s1 & Hop & Htrips & Hiter).
  unfold resume. rewrite (RetryLoop_permanent fuel _ ctx s s1 _ Hop).
  cbn. eexists. split; [reflexivity|]. cbn. auto.
Qed.

(** C2, as the code has it.  A transport error is classified by its text
    alone: unless [Error()] is literally one of the four messages of
    [isRetryableError], the attempt is terminal and the call returns the
    error after this one attempt, also under a context that is neither
    canceled nor expired. *)
Theorem transport_error_classified_by_text
        fuel ctx req (s : State B) e :
  admitted c s ->
  outcome (nextTrip env req s) = inr e ->
  isRetryableError (Some e) = false ->
  exists s',
    resume env c (S fuel) ctx req s
    = Some (Returns None (Some (wrapError "request failed: " e)), s')
    /\ trips s'
       = (trips s ++ [(nextSent env req s, nextTrip env req s)])%list
    /\ iterations s' = S (iterations s).
Proof.
  intros Hadm Hout Hnot.
  destruct (operation_transport_error req s e Hadm Hout)
    as (s1 & Hop & Htrips & Hiter).
  rewrite Hnot in Hop.
  unfold resume. rewrite (RetryLoop_permanent fuel _ ctx s s1 _ Hop).
  cbn. eexists. split; [reflexivity|]. cbn. auto.
Qed.

(** ** The open breaker *)

(** C4. When the breaker is open and its cooldown has not run out, a call
    whose request could be built makes no transport call and returns the
    circuit-open error, which [isRetryableError] does not accept: the retry
    loop runs its closure once and stops, without asking the policy for a
    delay and without waiting, whatever fuel is left. *)
Theorem open_breaker_fails_fast
        fuel ctx method path body headers (s : State B) bodyBytes :
  marshalBody env body = inl bodyBytes ->
  NewRequest_err env method (baseURL c ++ path) = None ->
  gobreaker.rejects (breaker s) (clock s) ->
  isRetryableError (Some gobreaker.ErrOpenState) = false
  /\ exists s',
      doRequest env c (S fuel) ctx method path body headers s
      = Some (Returns None
                (Some (wrapError "request failed: " gobreaker.ErrOpenState)),
              s')
      /\ trips s' = trips s
      /\ iterations s' = S (iterations s)
      /\ clock s' = clock s
      /\ retryBackoff s' = backoff.Reset (retryBackoff s) (clock s).
Proof.
  intros Hm Hn Hrej. split; [reflexivity|].
  destruct (doRequest_resume (S fuel) ctx method path body headers s
                             bodyBytes Hm Hn)
    as (s1 & Hrun & Htrips & Hiter & Hclock & Hbreaker & _ & Hpolicy).
  rewrite Hrun. unfold resume.
  assert (Hrej1 : gobreaker.rejects (breaker s1) (clock s1))
    by (rewrite Hbreaker, Hclock; exact Hrej).
  rewrite (RetryLoop_permanent fuel _ ctx s1 _ _
             (operation_rejected _ s1 Hrej1)).
  cbn. eexists. split; [reflexivity|]. cbn. auto.
Qed.

(** ** Early return *)

(** C7. A call whose non-nil body does not serialize returns the encoding
    error at once, whatever the fuel: no transport call, no iteration of
    the retry loop, and the span is ended with the status Error. *)
Theorem marshal_failure_returns_early
        fuel ctx method path v headers (s : State B) e :
  json_Marshal env v = inr e ->
  exists s',
    doRequest env c fuel ctx method path (Some v) headers s
    = Some (Returns None (Some (wrapError "marshal request body: " e)), s')
    /\ trips s' = trips s
    /\ iterations s' = iterations s
    /\ status (span s') = (codes.Error, Error e)
    /\ ended (span s') = true.
Proof.
  intros Hm. unfold doRequest, marshalBody. rewrite Hm.
  eexists. split; [reflexivity|]. cbn. auto.
Qed.

(** ** Response helpers *)

(** C9. [IsSuccess] holds exactly for the statuses from 200 to 299. *)
Theorem IsSuccess_iff_2xx (r : Response) :
  IsSuccess r = true <-> 200 <= StatusCode r < 300.
Proof.
  unfold IsSuccess. rewrite andb_true_iff, Z.leb_le, Z.ltb_lt. tauto.
Qed.

(** ** What a returned call carries *)

Lemma last_trip (l : list (list byte * RoundTrip)) x :
  last (map Some (l ++ [x])%list) None = Some x.
Proof. rewrite map_app. cbn. apply last_last. Qed.

(** An iteration that reports no error has stored the response its own
    transport call delivered. *)
Lemma operation_success req (s s1 : State B) :
  operation env c req s = (None, s1) ->
  exists r, resp s1 = Some r /\ deliveredLast s1 r.
Proof.
  unfold operation, Execute.
  destruct (gobreaker.beforeRequest _ _ _) as [[cb1 gen] [e|]].
  - cbn -[isRetryableError]. destruct (isRetryableError _); discriminate.
  - unfold roundTrip.
    destruct (outcome _) as [h|e] eqn:Hout.
    + destruct (http_Body h) as [b|readErr] eqn:Hbody.
      * destruct (_ || _).
        -- cbn -[isRetryableError].
           destruct (isRetryableError _); discriminate.
        -- cbn. intros Heq. injection Heq as <-.
           eexists. split; [reflexivity|].
           unfold deliveredLast. cbn. rewrite last_trip.
           do 3 eexists. split; [reflexivity|].
           split; [exact Hout|]. cbn. rewrite Hbody. auto.
      * cbn -[isRetryableError].
        destruct (isRetryableError _); discriminate.
    + cbn -[isRetryableError].
      destruct (isRetryableError _); discriminate.
Qed.

(** The retry loop ends without error only after such an iteration. *)
Lemma RetryLoop_success fuel ctx req : forall (s s' : State B),
  RetryLoop fuel (operation env c req) ctx s = Some (None, s') ->
  exists r, resp s' = Some r /\ deliveredLast s' r.
Proof.
  induction fuel as [|fuel IH]; intros s s'; [discriminate|].
  cbn [RetryLoop].
  destruct (operation env c req s) as [[e|] s1] eqn:Hop.
  - destruct (As_PermanentError e); [discriminate|].
    destruct (backoff.WithContext_NextBackOff _ _ _) as [next b].
    destruct (next =? backoff.Stop).
    + destruct (context.Err _ _); discriminate.
    + destruct (backoff.wait _ _ _) as [t [cerr|]]; [discriminate|].
      apply IH.
  - intros Heq. injection Heq as <-.
    exact (operation_success req s s1 Hop).
Qed.

(** [finish] turns the loop's result into the two return values. *)
Lemma finish_shape method url err (s1 s' : State B) ret :
  (err = None -> exists r, resp s1 = Some r /\ deliveredLast s1 r) ->
  finish method url (err, s1) = (ret, s') ->
  oneOfTwo ret s'.
Proof.
  intros Hok. unfold finish. destruct err as [e|].
  - intros Heq. injection Heq as <- <-. left. eexists. reflexivity.
  - destruct (Hok eq_refl) as (r & Hresp & Hlast). rewrite Hresp.
    intros Heq. injection Heq as <- <-. right. exists r.
    split; [reflexivity|].
    destruct (400 <=? StatusCode r); exact Hlast.
Qed.

Lemma doRequest_shape fuel ctx method path body headers (s s' : State B) ret :
  doRequest env c fuel ctx method path body headers s = Some (ret, s') ->
  oneOfTwo ret s'.
Proof.
  unfold doRequest.
  destruct (marshalBody env body) as [bodyBytes|err].
  - destruct (NewRequest_err env method _) as [err|].
    + intros Heq. injection Heq as <- <-. left. eexists. reflexivity.
    + unfold Retry.
      destruct (RetryLoop _ _ _ _) as [[err s1]|] eqn:Hloop; [|discriminate].
      cbn [option_map]. intros Heq. injection Heq as Heq.
      eapply finish_shape; [|exact Heq].
      intros ->. exact (RetryLoop_success _ _ _ _ _ Hloop).
  - intros Heq. injection Heq as <- <-. left. eexists. reflexivity.
Qed.

(** C10. Whenever one of [Get], [Post], [Put], [Patch] and [Delete]
    returns, it returns exactly one of a response and an error (and does
    not panic): either the response is nil and the error is not, or the
    error is nil and the response carries the status, the headers and the
    whole body of the last transport call of the run. *)
Theorem call_returns_response_xor_error
        fuel ctx path body headers (s s' : State B) ret :
  Get env c fuel ctx path headers s = Some (ret, s')
  \/ Post env c fuel ctx path body headers s = Some (ret, s')
  \/ Put env c fuel ctx path body headers s = Some (ret, s')
  \/ Patch env c fuel ctx path body headers s = Some (ret, s')
  \/ Delete env c fuel ctx path headers s = Some (ret, s') ->
  oneOfTwo ret s'.
Proof.
  unfold Get, Post, Put, Patch, Delete.
  intros [H | [H | [H | [H | H]]]]; exact (doRequest_shape _ _ _ _ _ _ _ _ _ H).
Qed.

(** ** The span of a returned response *)

(** C6, as amended.  When a call returns a response, the span status is
    Error with the message [HTTP <code>] if the status code is 400 or
    above, and Ok otherwise (so also for 1xx and 3xx); the numeric status
    code is attached as the attribute [http.status_code], and the span is
    ended. *)
Theorem span_status_threshold_400
        fuel ctx method path body headers (s s' : State B) r e :
  doRequest env c fuel ctx method path body headers s
  = Some (Returns (Some r) e, s') ->
  spanFollowsThreshold r (span s') /\ ended (span s') = true.
Proof.
  unfold doRequest.
  destruct (marshalBody env body) as [bodyBytes|err]; [|discriminate].
  destruct (NewRequest_err env method _) as [err|]; [discriminate|].
  destruct (Retry _ _ _ _) as [[[err|] s1]|]; cbn; try discriminate.
  destruct (resp s1) as [r1|]; [|discriminate].
  intros Heq. injection Heq as -> _ <-.
  unfold spanFollowsThreshold.
  destruct (400 <=? StatusCode r); cbn; repeat split;
    apply in_or_app; right; left; reflexivity.
Qed.

(** ** The body over a whole call *)

Lemma firstn_length_firstn {A} k : forall (l : list A),
  firstn (List.length (firstn k l)) l = firstn k l.
Proof.
  induction k as [|k IH]; intros [|x l]; cbn; try reflexivity.
  rewrite IH. reflexivity.
Qed.

Lemma firstn_plus_skipn {A} n m : forall (l : list A),
  firstn (n + m) l = (firstn n l ++ firstn m (skipn n l))%list.
Proof.
  induction n as [|n IH]; intros l; [reflexivity|].
  destruct l as [|x l]; cbn.
  - destruct m; reflexivity.
  - rewrite IH. reflexivity.
Qed.

Lemma unread_skipn req n : unread req n = skipn n (bodyOf req).
Proof.
  unfold bodyOf, unread. destruct (ReqBody req); [reflexivity|].
  destruct n; reflexivity.
Qed.

Lemma continues_refl req (s s' : State B) :
  trips s' = trips s -> offset s' = offset s -> continues req s s'.
Proof.
  intros Ht Ho. exists []. rewrite Ht, Ho, !app_nil_r. auto.
Qed.

Lemma continues_trans req (s1 s2 s3 : State B) :
  continues req s1 s2 -> continues req s2 s3 -> continues req s1 s3.
Proof.
  intros (a1 & Ht1 & Hb1) (a2 & Ht2 & Hb2). exists (a1 ++ a2)%list. split.
  - rewrite Ht2, Ht1, app_assoc. reflexivity.
  - rewrite map_app, List.concat_app, app_assoc, Hb1. exact Hb2.
Qed.

Lemma continues_trip req (s s' : State B) :
  trips s' = (trips s ++ [(nextSent env req s, nextTrip env req s)])%list ->
  offset s' = (offset s + List.length (nextSent env req s))%nat ->
  continues req s s'.
Proof.
  intros Ht Ho. exists [(nextSent env req s, nextTrip env req s)].
  split; [exact Ht|]. rewrite Ho. cbn. rewrite app_nil_r.
  unfold nextSent. rewrite unread_skipn, firstn_plus_skipn.
  rewrite firstn_length_firstn. reflexivity.
Qed.

Lemma operation_continues req (s s1 : State B) err :
  operation env c req s = (err, s1) -> continues req s s1.
Proof.
  unfold operation, Execute.
  destruct (gobreaker.beforeRequest _ _ _) as [[cb1 gen] [e|]].
  - cbn -[isRetryableError]. destruct (isRetryableError _);
      intros Heq; injection Heq as _ <-; apply continues_refl; reflexivity.
  - unfold roundTrip.
    destruct (outcome _) as [h|e] eqn:Hout.
    + destruct (http_Body h) as [b|readErr].
      * destruct (_ || _); cbn -[isRetryableError];
          try destruct (isRetryableError _);
          intros Heq; injection Heq as _ <-;
          apply continues_trip; reflexivity.
      * cbn -[isRetryableError]. destruct (isRetryableError _);
          intros Heq; injection Heq as _ <-;
          apply continues_trip; reflexivity.
    + cbn -[isRetryableError]. destruct (isRetryableError _);
        intros Heq; injection Heq as _ <-;
        apply continues_trip; reflexivity.
Qed.

Lemma RetryLoop_continues fuel ctx req : forall (s s' : State B) err,
  RetryLoop fuel (operation env c req) ctx s = Some (err, s') ->
  continues req s s'.
Proof.
  induction fuel as [|fuel IH]; intros s s' err; [discriminate|].
  cbn [RetryLoop].
  destruct (operation env c req s) as [[e|] s1] eqn:Hop;
    pose proof (operation_continues _ _ _ _ Hop) as Hstep.
  - destruct (As_PermanentError e).
    { intros Heq. injection Heq as _ <-. exact Hstep. }
    destruct (backoff.WithContext_NextBackOff _ _ _) as [next b].
    destruct (next =? backoff.Stop).
    + destruct (context.Err _ _); intros Heq; injection Heq as _ <-;
        (eapply continues_trans; [exact Hstep|]);
        apply continues_refl; reflexivity.
    + destruct (backoff.wait _ _ _) as [t [cerr|]].
      * intros Heq. injection Heq as _ <-.
        eapply continues_trans; [exact Hstep|].
        apply continues_refl; reflexivity.
      * intros Hrest. eapply continues_trans; [exact Hstep|].
        eapply continues_trans; [|exact (IH _ _ _ Hrest)].
        apply continues_refl; reflexivity.
  - intros Heq. injection Heq as _ <-. exact Hstep.
Qed.

(** ** Fuel *)

(** Fuel only bounds the number of iterations: a loop that ends within
    [fuel] iterations ends the same way with more. *)
Lemma RetryLoop_fuel_mono fuel extra op ctx : forall (s : State B) r,
  RetryLoop fuel op ctx s = Some r ->
  RetryLoop (fuel + extra) op ctx s = Some r.
Proof.
  induction fuel as [|fuel IH]; intros s r; [discriminate|].
  cbn [RetryLoop Nat.add].
  destruct (op s) as [[e|] s1]; [|trivial].
  destruct (As_PermanentError e); [trivial|].
  destruct (backoff.WithContext_NextBackOff _ _ _) as [next b].
  destruct (next =? backoff.Stop); [trivial|].
  destruct (backoff.wait _ _ _) as [t [cerr|]]; [trivial|].
  apply IH.
Qed.

Lemma doRequest_fuel_mono fuel extra ctx method path body headers
      (s : State B) r :
  doRequest env c fuel ctx method path body headers s = Some r ->
  doRequest env c (fuel + extra) ctx method path body headers s = Some r.
Proof.
  unfold doRequest.
  destruct (marshalBody env body) as [bodyBytes|err]; [|trivial].
  destruct (NewRequest_err env method _) as [err|]; [trivial|].
  unfold Retry.
  destruct (RetryLoop fuel _ _ _) as [r1|] eqn:Hloop; [|discriminate].
  rewrite (RetryLoop_fuel_mono _ extra _ _ _ _ Hloop). trivial.
Qed.

End Properties.

(** * The scenarios *)

Import Scenario.

(** The 503, 503, 200 target: the call stops at the first 503. *)
Example flaky_target_run :
  exists s',
    Get (env flaky) client 5 context.Background "/api/v1/users/7" [] fresh
    = Some (Returns None
              (Some (wrapError "request failed: "
                       (errorString "retryable status 503: unavailable"))),
            s')
    /\ List.length (trips s') = 1%nat
    /\ iterations s' = 1%nat.
Proof. eexists. split; [vm_compute; reflexivity|]. split; reflexivity. Qed.

(** An unreachable target under a live context: one attempt. *)
Example unreachable_target_run :
  exists s',
    Get (env unreachable) client 5 context.Background "/api/v1/users/7" []
        fresh
    = Some (Returns None
              (Some (wrapError "request failed: " refused)),
            s')
    /\ List.length (trips s') = 1%nat
    /\ context.Err context.Background (clock s') = None.
Proof. eexists. split; [vm_compute; reflexivity|]. split; reflexivity. Qed.

(** C6, as stated, fails at a 304: the call returns the response, which is
    not a success, and the span status is Ok. *)
Lemma span_status_304_is_ok :
  exists r s',
    Get (env (always 304)) client 5 context.Background "/api/v1/users/7" []
        fresh
    = Some (Returns (Some r) None, s')
    /\ ~ spanFollowsSuccess r (span s').
Proof.
  do 2 eexists. split; [vm_compute; reflexivity|].
  intros [Hstatus _]. vm_compute in Hstatus. discriminate.
Qed.

(** A 404 is returned from the first attempt. *)
Example not_found_run :
  exists r s',
    Get (env (always 404)) client 5 context.Background "/api/v1/users/7" []
        fresh
    = Some (Returns (Some r) None, s')
    /\ StatusCode r = 404 /\ IsSuccess r = false
    /\ List.length (trips s') = 1%nat.
Proof.
  do 2 eexists. split; [vm_compute; reflexivity|]. repeat split.
Qed.

(** * Instances of the theorems *)

Lemma server_error_status_witness :
  isRetryableError
    (Some (statusError (reply 503 "unavailable")
                       (list_byte_of_string "unavailable"))) = false
  /\ exists s',
      resume (env flaky) client 3 context.Background getUser fresh
      = Some (Returns None
                (Some (wrapError "request failed: "
                         (statusError (reply 503 "unavailable")
                            (list_byte_of_string "unavailable")))),
              s')
      /\ trips s'
         = [(nextSent (env flaky) getUser fresh,
             nextTrip (env flaky) getUser fresh)]
      /\ iterations s' = 1%nat.
Proof.
  apply (server_error_status_not_retried
           (env flaky) client 2 context.Background getUser fresh
           (reply 503 "unavailable") (list_byte_of_string "unavailable")).
  - vm_compute. reflexivity.
  - reflexivity.
  - reflexivity.
  - left. simpl. lia.
Defined.

Lemma transport_error_witness :
  context.Err context.Background (clock fresh) = None
  /\ exists s',
      resume (env unreachable) client 3 context.Background getUser fresh
      = Some (Returns None (Some (wrapError "request failed: " refused)), s')
      /\ trips s'
         = [(nextSent (env unreachable) getUser fresh,
             nextTrip (env unreachable) getUser fresh)]
      /\ iterations s' = 1%nat.
Proof.
  split; [reflexivity|].
  apply (transport_error_classified_by_text
           (env unreachable) client 2 context.Background getUser fresh
           refused).
  - vm_compute. reflexivity.
  - reflexivity.
  - reflexivity.
Defined.

Lemma open_breaker_witness :
  gobreaker.rejects (breaker tripped) (clock tripped)
  /\ isRetryableError (Some gobreaker.ErrOpenState) = false
  /\ exists s',
      doRequest (env (always 200)) client 3 context.Background
                "GET" "/api/v1/users/7" None [] tripped
      = Some (Returns None
                (Some (wrapError "request failed: " gobreaker.ErrOpenState)),
              s')
      /\ trips s' = []
      /\ iterations s' = 1%nat
      /\ clock s' = clock tripped
      /\ retryBackoff s' = retryBackoff tripped.
Proof.
  assert (Hrej : gobreaker.rejects (breaker tripped) (clock tripped))
    by (split; reflexivity).
  split; [exact Hrej|].
  exact (open_breaker_fails_fast
           (env (always 200)) client 2 context.Background
           "GET" "/api/v1/users/7" None [] tripped None
           eq_refl eq_refl Hrej).
Defined.

Lemma marshal_failure_witness :
  exists s',
    doRequest (env (always 200)) client 0 context.Background
              "POST" "/api/v1/items" (Some Chan) [] fresh
    = Some (Returns None
              (Some (wrapError "marshal request body: "
                       (errorString "json: unsupported type: chan int"))),
            s')
    /\ trips s' = []
    /\ iterations s' = 0%nat
    /\ status (span s') = (codes.Error, "json: unsupported type: chan int")
    /\ ended (span s') = true.
Proof.
  apply (marshal_failure_returns_early
           (env (always 200)) client 0 context.Background
           "POST" "/api/v1/items" Chan [] fresh
           (errorString "json: unsupported type: chan int")).
  reflexivity.
Defined.

Lemma call_returns_witness :
  exists ret s',
    Get (env (always 404)) client 5 context.Background "/api/v1/users/7" []
        fresh
    = Some (ret, s')
    /\ oneOfTwo ret s'.
Proof.
  do 2 eexists. split; [vm_compute; reflexivity|].
  apply (call_returns_response_xor_error
           (env (always 404)) client 5 context.Background "/api/v1/users/7"
           None [] fresh).
  left. vm_compute. reflexivity.
Defined.

Lemma span_status_witness :
  exists r s',
    doRequest (env (always 404)) client 5 context.Background
              "GET" "/api/v1/users/7" None [] fresh
    = Some (Returns (Some r) None, s')
    /\ StatusCode r = 404
    /\ spanFollowsThreshold r (span s')
    /\ ended (span s') = true.
Proof.
  do 2 eexists. split; [vm_compute; reflexivity|]. split; [reflexivity|].
  apply (span_status_threshold_400
           (env (always 404)) client 5 context.Background
           "GET" "/api/v1/users/7" None [] fresh _ _ None).
  vm_compute. reflexivity.
Defined.

(** * More of the pipeline *)

Section Paths.

Context {B : Type} {policy : backoff.BackOff B} {V : Type}.
Variable env : Env V.
Variable c : Client.

(** ** The other early return *)

(** X2.  When the request cannot be built, [doRequest] returns the wrapped
    error at once, whatever the fuel: no transport call, no iteration, no
    log line, the breaker and the policy untouched, and the span ended
    with the status Error and the error recorded. *)
Theorem create_request_failure_returns_early
        fuel ctx method path body headers (s : State B) bodyBytes err :
  marshalBody env body = inl bodyBytes ->
  NewRequest_err env method (baseURL c ++ path) = Some err ->
  exists s',
    doRequest env c fuel ctx method path body headers s
    = Some (Returns None (Some (wrapError "create request: " err)), s')
    /\ trips s' = trips s
    /\ iterations s' = iterations s
    /\ breaker s' = breaker s
    /\ retryBackoff s' = retryBackoff s
    /\ logs s' = logs s
    /\ status (span s') = (codes.Error, Error err)
    /\ recorded (span s') = [err]
    /\ ended (span s') = true.
Proof.
  intros Hm Hn. unfold doRequest. rewrite Hm, Hn.
  eexists. split; [reflexivity|]. cbn. repeat split.
Qed.

(** ** Failures inside an attempt *)

(** X1.  A response whose body cannot be read to the end ends the call,
    whatever its status and whatever the text of the read error: the error
    is wrapped before it is classified, so not even a read error that
    reads "connection reset" is retried. *)
Theorem read_failure_is_terminal fuel ctx req (s : State B) h readErr :
  admitted c s ->
  outcome (nextTrip env req s) = inl h ->
  http_Body h = inr readErr ->
  exists s',
    resume env c (S fuel) ctx req s
    = Some (Returns None
              (Some (wrapError "request failed: "
                       (wrapError "read response: " readErr))), s')
    /\ trips s'
       = (trips s ++ [(nextSent env req s, nextTrip env req s)])%list
    /\ iterations s' = S (iterations s).
Proof.
  unfold admitted, resume, nextTrip, nextSent.
  intros Hadm Hout Hbody.
  cbn [RetryLoop]. unfold operation, Execute.
  destruct (gobreaker.beforeRequest _ _ _) as [[cb1 gen] err].
  simpl in Hadm. subst err.
  unfold roundTrip. cbn -[isRetryableError]. rewrite Hout, Hbody.
  cbn -[isRetryableError]. rewrite isRetryableError_read_response.
  cbn. eexists. split; [reflexivity|]. cbn. auto.
Qed.

Lemma beforeRequest_error st cb now cb1 gen e :
  gobreaker.beforeRequest st cb now = (cb1, gen, Some e) ->
  e = gobreaker.ErrOpenState \/ e = gobreaker.ErrTooManyRequests.
Proof.
  unfold gobreaker.beforeRequest.
  destruct (gobreaker.state _).
  - discriminate.
  - destruct (_ <=? _); [|discriminate].
    intros Heq. injection Heq as _ _ <-. right. reflexivity.
  - intros Heq. injection Heq as _ _ <-. left. reflexivity.
Qed.

(** X3.  An iteration the breaker turns away, open or half open with all its
    probes out, ends the call: the breaker's error is one of its two, it
    is not retryable, no transport call is made and no time passes. *)
Theorem breaker_rejection_is_terminal fuel ctx req (s : State B) e :
  turnedAway c s e ->
  (e = gobreaker.ErrOpenState \/ e = gobreaker.ErrTooManyRequests)
  /\ exists s',
      resume env c (S fuel) ctx req s
      = Some (Returns None (Some (wrapError "request failed: " e)), s')
      /\ trips s' = trips s
      /\ iterations s' = S (iterations s)
      /\ clock s' = clock s
      /\ retryBackoff s' = retryBackoff s.
Proof.
  unfold turnedAway, resume. intros Hrej.
  destruct (gobreaker.beforeRequest (circuitBreaker c) (breaker s) (clock s))
    as [[cb1 gen] err] eqn:Hb.
  simpl in Hrej. subst err.
  pose proof (beforeRequest_error _ _ _ _ _ _ Hb) as He.
  split; [exact He|].
  cbn [RetryLoop]. unfold operation, Execute. cbn [tick breaker clock].
  rewrite Hb.
  assert (Hnot : isRetryableError (Some e) = false)
    by (destruct He; subst e; reflexivity).
  cbn -[isRetryableError]. rewrite Hnot.
  cbn. eexists. split; [reflexivity|]. cbn. auto.
Qed.

End Paths.

(** * Whole calls *)

Section Calls.

Context {B : Type} {policy : backoff.BackOff B} {V : Type}.
Variable env : Env V.
Variable c : Client.

(** ** What the retry loop leaves alone *)

(** An iteration records errors on the span and nothing else: name,
    attributes, status and the log are as before. *)
Lemma operation_frame req (s s1 : State B) err :
  operation env c req s = (err, s1) ->
  spanName (span s1) = spanName (span s)
  /\ attributes (span s1) = attributes (span s)
  /\ status (span s1) = status (span s)
  /\ ended (span s1) = ended (span s)
  /\ logs s1 = logs s.
Proof.
  unfold operation, Execute.
  destruct (gobreaker.beforeRequest _ _ _) as [[cb1 gen] [e|]].
  - cbn -[isRetryableError]. destruct (isRetryableError _);
      intros Heq; injection Heq as _ <-; cbn; auto.
  - unfold roundTrip.
    destruct (outcome _) as [h|e].
    + destruct (http_Body h) as [b|readErr].
      * destruct (_ || _); cbn -[isRetryableError];
          try destruct (isRetryableError _);
          intros Heq; injection Heq as _ <-; cbn; auto.
      * cbn -[isRetryableError]. destruct (isRetryableError _);
          intros Heq; injection Heq as _ <-; cbn; auto.
    + cbn -[isRetryableError]. destruct (isRetryableError _);
        intros Heq; injection Heq as _ <-; cbn; auto.
Qed.

Lemma RetryLoop_frame fuel ctx req : forall (s s' : State B) err,
  RetryLoop fuel (operation env c req) ctx s = Some (err, s') ->
  spanName (span s') = spanName (span s)
  /\ attributes (span s') = attributes (span s)
  /\ status (span s') = status (span s)
  /\ ended (span s') = ended (span s)
  /\ logs s' = logs s.
Proof.
  induction fuel as [|fuel IH]; intros s s' err; [discriminate|].
  cbn [RetryLoop].
  destruct (operation env c req s) as [[e|] s1] eqn:Hop;
    pose proof (operation_frame _ _ _ _ Hop) as Hstep.
  - destruct (As_PermanentError e).
    { intros Heq. injection Heq as _ <-. exact Hstep. }
    destruct (backoff.WithContext_NextBackOff _ _ _) as [next b].
    destruct (next =? backoff.Stop).
    + destruct (context.Err _ _); intros Heq; injection Heq as _ <-;
        exact Hstep.
    + destruct (backoff.wait _ _ _) as [t [cerr|]].
      * intros Heq. injection Heq as _ <-. exact Hstep.
      * intros Hrest. apply IH in Hrest. cbn in Hrest.
        destruct Hstep as (H1 & H2 & H3 & H4 & H5).
        destruct Hrest as (R1 & R2 & R3 & R4 & R5).
        rewrite R1, R2, R3, R4, R5. auto.
  - intros Heq. injection Heq as _ <-. exact Hstep.
Qed.

(** ** The span *)

(** X16.  Whenever [doRequest] returns an error, the response is nil, the error
    wraps its cause under one of the three prefixes of [doRequest], the
    cause is the last error recorded on the span and the span status is
    Error with the cause's text as its message. *)
Theorem error_return_marks_span
        fuel ctx method path body headers (s s' : State B) r e :
  doRequest env c fuel ctx method path body headers s
  = Some (Returns r (Some e), s') ->
  r = None
  /\ exists prefix cause,
      e = wrapError prefix cause
      /\ (prefix = "marshal request body: " \/ prefix = "create request: "
          \/ prefix = "request failed: ")
      /\ status (span s') = (codes.Error, Error cause)
      /\ exists before, recorded (span s') = (before ++ [cause])%list.
Proof.
  unfold doRequest.
  destruct (marshalBody env body) as [bodyBytes|err].
  - destruct (NewRequest_err env method _) as [err|].
    + intros Heq. injection Heq as <- <- <-. split; [reflexivity|].
      do 2 eexists. split; [reflexivity|]. split; [auto|].
      split; [reflexivity|]. exists []. reflexivity.
    + destruct (Retry _ _ _ _) as [[[e1|] s1]|]; cbn; try discriminate.
      * intros Heq. injection Heq as <- <- <-. split; [reflexivity|].
        do 2 eexists. split; [reflexivity|]. split; [auto|].
        split; [reflexivity|]. eexists. reflexivity.
      * destruct (resp s1); discriminate.
  - intros Heq. injection Heq as <- <- <-. split; [reflexivity|].
    do 2 eexists. split; [reflexivity|]. split; [auto|].
    split; [reflexivity|]. exists []. reflexivity.
Qed.

(** ** The status of a returned response *)

Lemma operation_success_status req (s s1 : State B) :
  operation env c req s = (None, s1) ->
  exists r, resp s1 = Some r /\ StatusCode r < 500 /\ StatusCode r <> 429.
Proof.
  unfold operation, Execute.
  destruct (gobreaker.beforeRequest _ _ _) as [[cb1 gen] [e|]].
  - cbn -[isRetryableError]. destruct (isRetryableError _); discriminate.
  - unfold roundTrip.
    destruct (outcome _) as [h|e].
    + destruct (http_Body h) as [b|readErr].
      * destruct (_ || _) eqn:Htest.
        -- cbn -[isRetryableError].
           destruct (isRetryableError _); discriminate.
        -- cbn. intros Heq. injection Heq as <-.
           eexists. split; [reflexivity|]. cbn.
           apply orb_false_iff in Htest. destruct Htest as [H5 H4].
           apply Z.leb_gt in H5. apply Z.eqb_neq in H4. auto.
      * cbn -[isRetryableError].
        destruct (isRetryableError _); discriminate.
    + cbn -[isRetryableError].
      destruct (isRetryableError _); discriminate.
Qed.

Lemma RetryLoop_success_status fuel ctx req : forall (s s' : State B),
  RetryLoop fuel (operation env c req) ctx s = Some (None, s') ->
  exists r, resp s' = Some r /\ StatusCode r < 500 /\ StatusCode r <> 429.
Proof.
  induction fuel as [|fuel IH]; intros s s'; [discriminate|].
  cbn [RetryLoop].
  destruct (operation env c req s) as [[e|] s1] eqn:Hop.
  - destruct (As_PermanentError e); [discriminate|].
    destruct (backoff.WithContext_NextBackOff _ _ _) as [next b].
    destruct (next =? backoff.Stop).
    + destruct (context.Err _ _); discriminate.
    + destruct (backoff.wait _ _ _) as [t [cerr|]]; [discriminate|].
      apply IH.
  - intros Heq. injection Heq as <-.
    exact (operation_success_status req s s1 Hop).
Qed.

(** X11.  A response that [doRequest] returns never has a status of 500 or
    above, nor 429: those come back as errors.  With a status from 200 to
    299 the span is Ok. *)
Theorem returned_status_below_500
        fuel ctx method path body headers (s s' : State B) r e :
  doRequest env c fuel ctx method path body headers s
  = Some (Returns (Some r) e, s') ->
  e = None
  /\ StatusCode r < 500 /\ StatusCode r <> 429
  /\ (IsSuccess r = true -> status (span s') = (codes.Ok, "success")).
Proof.
  unfold doRequest.
  destruct (marshalBody env body) as [bodyBytes|err]; [|discriminate].
  destruct (NewRequest_err env method _) as [err|]; [discriminate|].
  unfold Retry.
  destruct (RetryLoop _ _ _ _) as [[[e1|] s1]|] eqn:Hloop; cbn;
    try discriminate.
  destruct (RetryLoop_success_status _ _ _ _ _ Hloop) as (r1 & Hresp & Hlt & Hne).
  rewrite Hresp. intros Heq. injection Heq as <- <- <-.
  repeat split; try assumption.
  unfold IsSuccess. intros Hok. apply andb_true_iff in Hok.
  destruct Hok as [_ Hok]. apply Z.ltb_lt in Hok.
  replace (400 <=? StatusCode r1) with false
    by (symmetry; apply Z.leb_gt; lia).
  reflexivity.
Qed.

End Calls.

(** * Traces *)

Section Traces.

Context {B : Type} {policy : backoff.BackOff B} {V : Type}.
Variable env : Env V.
Variable c : Client.

(** ** When a further attempt is made *)

(** An iteration makes at most one transport call, and when the loop can
    go on after it, that call failed with an error that
    [isRetryableError] accepts. *)
Lemma operation_trace req (s s1 : State B) err :
  operation env c req s = (err, s1) ->
  (trips s1 = trips s \/ exists t, trips s1 = (trips s ++ [t])%list)
  /\ forall e, err = Some e -> As_PermanentError e = None ->
               exists t, trips s1 = (trips s ++ [t])%list /\ retried t.
Proof.
  unfold operation, Execute.
  destruct (gobreaker.beforeRequest _ _ _) as [[cb1 gen] [e|]] eqn:Hb.
  - assert (Hnot : isRetryableError (Some e) = false)
      by (destruct (beforeRequest_error _ _ _ _ _ _ Hb); subst e;
          reflexivity).
    cbn -[isRetryableError]. rewrite Hnot. cbn.
    intros Heq. injection Heq as Herr Hs1. subst err s1.
    split; [left; reflexivity|].
    intros e0 He0 Hperm. injection He0 as He0. subst e0. discriminate.
  - unfold roundTrip.
    destruct (outcome _) as [h|e] eqn:Hout.
    + destruct (http_Body h) as [b|readErr].
      * destruct (_ || _); cbn -[isRetryableError].
        -- destruct (isRetryableError _) eqn:Hr; [cbn in Hr; discriminate|].
           cbn.
           intros Heq. injection Heq as Herr Hs1. subst err s1.
           split; [right; eexists; reflexivity|].
           intros e0 He0 Hperm. injection He0 as He0. subst e0.
           discriminate.
        -- intros Heq. injection Heq as Herr Hs1. subst err s1.
           split; [right; eexists; reflexivity|]. discriminate.
      * cbn -[isRetryableError].
        destruct (isRetryableError _) eqn:Hr; [cbn in Hr; discriminate|].
        cbn. intros Heq. injection Heq as Herr Hs1. subst err s1.
        split; [right; eexists; reflexivity|].
        intros e0 He0 Hperm. injection He0 as He0. subst e0. discriminate.
    + cbn -[isRetryableError].
      destruct (isRetryableError (Some e)) eqn:Hretry; cbn;
        intros Heq; injection Heq as Herr Hs1; subst err s1;
        (split; [right; eexists; reflexivity|]);
        intros e0 He0 Hperm; injection He0 as He0; subst e0.
      * eexists. split; [reflexivity|].
        exists e. split; [exact Hout|exact Hretry].
      * discriminate.
Qed.

Lemma onlyLastUnretried_cons t l :
  retried t -> onlyLastUnretried l -> l <> [] -> onlyLastUnretried (t :: l).
Proof.
  intros Ht [Hnil | (init & final & Hl & Hall)] Hne; [contradiction|].
  right. exists (t :: init), final. split.
  - rewrite Hl. reflexivity.
  - constructor; assumption.
Qed.

Lemma onlyLastUnretried_one t : onlyLastUnretried [t].
Proof. right. exists [], t. split; [reflexivity|constructor]. Qed.

Lemma RetryLoop_trace fuel ctx req : forall (s s' : State B) err,
  RetryLoop fuel (operation env c req) ctx s = Some (err, s') ->
  exists added,
    trips s' = (trips s ++ added)%list /\ onlyLastUnretried added.
Proof.
  induction fuel as [|fuel IH]; intros s s' err; [discriminate|].
  cbn [RetryLoop].
  destruct (operation env c req s) as [[e|] s1] eqn:Hop;
    destruct (operation_trace _ _ _ _ Hop) as [Hstep Hretried].
  - assert (Hstop : exists added,
               trips s1 = (trips s ++ added)%list
               /\ onlyLastUnretried added).
    { destruct Hstep as [Hsame | [t Hone]].
      - exists []. rewrite app_nil_r. split; [exact Hsame|left; reflexivity].
      - exists [t]. split; [exact Hone|apply onlyLastUnretried_one]. }
    destruct (As_PermanentError e) eqn:Hperm.
    { intros Heq. injection Heq as _ <-. exact Hstop. }
    destruct (backoff.WithContext_NextBackOff _ _ _) as [next b].
    destruct (next =? backoff.Stop).
    + destruct (context.Err _ _); intros Heq; injection Heq as _ <-;
        exact Hstop.
    + destruct (backoff.wait _ _ _) as [t [cerr|]].
      * intros Heq. injection Heq as _ <-. exact Hstop.
      * intros Hrest. apply IH in Hrest. cbn in Hrest.
        destruct Hrest as (added & Htrips & Hshape).
        destruct (Hretried e eq_refl Hperm) as (t1 & Hone & Hret).
        exists (t1 :: added). split.
        -- rewrite Htrips, Hone, <- app_assoc. reflexivity.
        -- destruct added as [|t2 added].
           ++ apply onlyLastUnretried_one.
           ++ apply onlyLastUnretried_cons; [exact Hret|exact Hshape|].
              discriminate.
  - intros Heq. injection Heq as _ <-.
    destruct Hstep as [Hsame | [t Hone]].
    + exists []. rewrite app_nil_r. split; [exact Hsame|left; reflexivity].
    + exists [t]. split; [exact Hone|apply onlyLastUnretried_one].
Qed.

(** X4.  In every call that returns, each transport call but the last failed
    with a transport error whose text is literally one of the four of
    [isRetryableError]: nothing else is ever followed by a further
    attempt. *)
Theorem retries_only_after_literal_text
        fuel ctx method path body headers (s s' : State B) ret :
  doRequest env c fuel ctx method path body headers s = Some (ret, s') ->
  exists added,
    trips s' = (trips s ++ added)%list /\ onlyLastUnretried added.
Proof.
  unfold doRequest.
  destruct (marshalBody env body) as [bodyBytes|err].
  - destruct (NewRequest_err env method _) as [err|].
    + intros Heq. injection Heq as _ <-. exists []. cbn.
      rewrite app_nil_r. split; [reflexivity|left; reflexivity].
    + unfold Retry.
      destruct (RetryLoop _ _ _ _) as [[err s1]|] eqn:Hloop; [|discriminate].
      destruct (RetryLoop_trace _ _ _ _ _ _ Hloop) as (added & Ht & Hshape).
      cbn in Ht. cbn [option_map]. intros Heq. injection Heq as Heq.
      exists added. split; [|exact Hshape].
      unfold finish in Heq. destruct err as [e|].
      * injection Heq as _ <-. exact Ht.
      * destruct (resp s1) as [r|]; injection Heq as _ <-;
          [destruct (400 <=? StatusCode r)|]; exact Ht.
  - intros Heq. injection Heq as _ <-. exists []. cbn.
    rewrite app_nil_r. split; [reflexivity|left; reflexivity].
Qed.

(** ** Calls without a body *)

Lemma concat_nil_all (l : list (list byte)) :
  List.concat l = [] -> Forall (fun x => x = []) l.
Proof.
  induction l as [|x l IH]; cbn; intros H; [constructor|].
  apply app_eq_nil in H. destruct H as [Hx Hl].
  constructor; [exact Hx|exact (IH Hl)].
Qed.

(** X10.  [Get] and [Delete] pass no body: no transport call of theirs sends a
    byte. *)
Theorem get_and_delete_send_nothing
        fuel ctx path headers (s s' : State B) ret :
  Get env c fuel ctx path headers s = Some (ret, s')
  \/ Delete env c fuel ctx path headers s = Some (ret, s') ->
  exists added,
    trips s' = (trips s ++ added)%list
    /\ Forall (fun t => fst t = []) added.
Proof.
  assert (Hany : forall method,
             doRequest env c fuel ctx method path None headers s
             = Some (ret, s') ->
             exists added,
               trips s' = (trips s ++ added)%list
               /\ Forall (fun t => fst t = []) added).
  { intros method. unfold doRequest. cbn [marshalBody].
    destruct (NewRequest_err env method _) as [err|].
    - intros Heq. injection Heq as _ <-. exists []. cbn.
      rewrite app_nil_r. split; [reflexivity|constructor].
    - unfold Retry.
      destruct (RetryLoop _ _ _ _) as [[err s1]|] eqn:Hloop; [|discriminate].
      destruct (RetryLoop_continues _ _ _ _ _ _ _ _ Hloop)
        as (added & Ht & Hb).
      cbn in Ht. cbn [option_map]. intros Heq. injection Heq as Heq.
      exists added. split.
      + unfold finish in Heq. destruct err as [e|].
        * injection Heq as _ <-. exact Ht.
        * destruct (resp s1) as [r|]; injection Heq as _ <-;
            [destruct (400 <=? StatusCode r)|]; exact Ht.
      + unfold bodyOf, unread in Hb. cbn in Hb.
        rewrite !firstn_nil in Hb. cbn in Hb.
        apply concat_nil_all in Hb.
        rewrite Forall_map in Hb. exact Hb. }
  unfold Get, Delete. intros [H | H]; exact (Hany _ H).
Qed.

End Traces.

(** * Request headers *)

Section Headers.

Context {V : Type}.
Variable env : Env V.

Lemma Header_get_Set_same h key value :
  Header_get (Header_Set env h key value) (CanonicalMIMEHeaderKey env key)
  = Some [value].
Proof.
  unfold Header_get, Header_Set. cbn. rewrite String.eqb_refl. reflexivity.
Qed.

Lemma Header_get_Set_other h key value key' :
  CanonicalMIMEHeaderKey env key <> key' ->
  Header_get (Header_Set env h key value) key' = Header_get h key'.
Proof.
  intros Hne. unfold Header_get, Header_Set. cbn.
  replace (CanonicalMIMEHeaderKey env key =? key')%string with false
    by (symmetry; apply String.eqb_neq; exact Hne).
  f_equal. induction h as [|[a vs] h IH]; [reflexivity|]. cbn.
  destruct (a =? CanonicalMIMEHeaderKey env key)%string eqn:Ha; cbn.
  - apply String.eqb_eq in Ha. subst a.
    replace (CanonicalMIMEHeaderKey env key =? key')%string with false
      by (symmetry; apply String.eqb_neq; exact Hne).
    exact IH.
  - destruct (a =? key')%string; [reflexivity|exact IH].
Qed.

Lemma fold_Set_keeps headers key' : forall h,
  Forall (fun kv => CanonicalMIMEHeaderKey env (fst kv) <> key') headers ->
  Header_get
    (fold_left (fun h kv => Header_Set env h (fst kv) (snd kv)) headers h)
    key'
  = Header_get h key'.
Proof.
  induction headers as [|[k v] headers IH]; intros h Hall; [reflexivity|].
  inversion Hall as [|? ? Hk Hrest]; subst. cbn [fold_left fst snd].
  rewrite (IH _ Hrest). apply Header_get_Set_other. exact Hk.
Qed.

(** X18.  A header of the caller replaces whatever was set under the same
    canonical key, the defaults included: the request carries the value of
    the last caller header with that key, and only that value. *)
Theorem caller_header_wins
        method url bodyBytes headers before key value after :
  headers = (before ++ (key, value) :: after)%list ->
  Forall (fun kv => CanonicalMIMEHeaderKey env (fst kv)
                    <> CanonicalMIMEHeaderKey env key) after ->
  Header_get (ReqHeader (newRequest env method url bodyBytes headers))
             (CanonicalMIMEHeaderKey env key)
  = Some [value].
Proof.
  intros -> Hafter. unfold newRequest. cbn [ReqHeader].
  rewrite fold_left_app. cbn [fold_left fst snd].
  rewrite (fold_Set_keeps _ _ _ Hafter). apply Header_get_Set_same.
Qed.

(** X19.  Without a caller header under their keys, the request carries the
    defaults: [Content-Type] and [Accept] are [application/json]. *)
Theorem default_headers_are_json method url bodyBytes headers :
  CanonicalMIMEHeaderKey env "Content-Type" <> CanonicalMIMEHeaderKey env "Accept" ->
  Forall (fun kv =>
            CanonicalMIMEHeaderKey env (fst kv)
            <> CanonicalMIMEHeaderKey env "Content-Type"
            /\ CanonicalMIMEHeaderKey env (fst kv)
               <> CanonicalMIMEHeaderKey env "Accept") headers ->
  let h := ReqHeader (newRequest env method url bodyBytes headers) in
  Header_get h (CanonicalMIMEHeaderKey env "Content-Type") = Some ["application/json"]
  /\ Header_get h (CanonicalMIMEHeaderKey env "Accept") = Some ["application/json"].
Proof.
  intros Hne Hall. cbn zeta. unfold newRequest. cbn [ReqHeader]. split.
  - rewrite fold_Set_keeps
      by (eapply Forall_impl; [|exact Hall]; cbn; tauto).
    rewrite Header_get_Set_other by (intros H; apply Hne; auto).
    apply Header_get_Set_same.
  - rewrite fold_Set_keeps
      by (eapply Forall_impl; [|exact Hall]; cbn; tauto).
    apply Header_get_Set_same.
Qed.

Lemma filter_keys_subset (f : string * list string -> bool) h k :
  In k (map fst (filter f h)) -> In k (map fst h).
Proof.
  induction h as [|kv h IH]; cbn; [tauto|].
  destruct (f kv); cbn; tauto.
Qed.

Lemma filter_keys_NoDup (f : string * list string -> bool) h :
  NoDup (map fst h) -> NoDup (map fst (filter f h)).
Proof.
  induction h as [|kv h IH]; cbn; intros Hnd; [constructor|].
  inversion Hnd as [|? ? Hnotin Hrest]; subst.
  destruct (f kv); cbn; [|exact (IH Hrest)].
  constructor; [|exact (IH Hrest)].
  intros Hin. apply Hnotin. exact (filter_keys_subset _ _ _ Hin).
Qed.

Lemma Header_Set_wellformed h key value :
  NoDup (map fst h) /\ Forall (fun kv => List.length (snd kv) = 1%nat) h ->
  NoDup (map fst (Header_Set env h key value))
  /\ Forall (fun kv => List.length (snd kv) = 1%nat)
            (Header_Set env h key value).
Proof.
  intros [Hnd Hone]. unfold Header_Set. cbn. split.
  - constructor; [|apply filter_keys_NoDup; exact Hnd].
    intros Hin. apply in_map_iff in Hin. destruct Hin as ([a vs] & Ha & Hin).
    apply filter_In in Hin. destruct Hin as [_ Hf]. cbn in Ha, Hf. subst a.
    rewrite String.eqb_refl in Hf. discriminate.
  - constructor; [reflexivity|].
    apply Forall_forall. intros kv Hin. apply filter_In in Hin.
    rewrite Forall_forall in Hone. apply Hone. tauto.
Qed.

(** X20.  Whatever the caller passes, the request names each header once and
    gives it exactly one value. *)
Theorem request_headers_single_valued method url bodyBytes headers :
  let h := ReqHeader (newRequest env method url bodyBytes headers) in
  NoDup (map fst h) /\ Forall (fun kv => List.length (snd kv) = 1%nat) h.
Proof.
  cbn zeta. unfold newRequest. cbn [ReqHeader].
  set (h0 := Header_Set env (Header_Set env [] _ _) _ _).
  assert (H0 : NoDup (map fst h0)
               /\ Forall (fun kv => List.length (snd kv) = 1%nat) h0).
  { subst h0. do 2 apply Header_Set_wellformed.
    split; constructor. }
  revert H0. generalize h0. clear h0.
  induction headers as [|[k v] headers IH]; intros h0 H0; [exact H0|].
  cbn [fold_left fst snd]. apply IH. apply Header_Set_wellformed. exact H0.
Qed.

End Headers.

(** * Clients from [New] *)

Section Built.

Context {B : Type} {policy : backoff.BackOff B} {V : Type}.
Context {float64 zapLogger : Type}.
Variable env : Env V.
Variable nop : zapLogger.

(** A closed breaker lets every call through. *)
Lemma closed_breaker_admits st cb now :
  gobreaker.state cb = gobreaker.StateClosed ->
  snd (gobreaker.beforeRequest st cb now) = None.
Proof.
  intros Hst. unfold gobreaker.beforeRequest, gobreaker.currentState.
  rewrite Hst. destruct (_ && _); cbn; rewrite Hst; reflexivity.
Qed.

(** An admitted iteration makes its transport call, however it ends. *)
Lemma operation_admitted_trip c req (s s1 : State B) err :
  admitted c s ->
  operation env c req s = (err, s1) ->
  trips s1 = (trips s ++ [(nextSent env req s, nextTrip env req s)])%list.
Proof.
  unfold admitted, operation, Execute, nextSent, nextTrip. intros Hadm.
  destruct (gobreaker.beforeRequest _ _ _) as [[cb1 gen] e].
  simpl in Hadm. subst e. unfold roundTrip.
  destruct (outcome _) as [h|e].
  - destruct (http_Body h) as [b|readErr].
    + destruct (_ || _); cbn -[isRetryableError];
        try destruct (isRetryableError _);
        intros Heq; injection Heq as _ <-; reflexivity.
    + cbn -[isRetryableError]. destruct (isRetryableError _);
        intros Heq; injection Heq as _ <-; reflexivity.
  - cbn -[isRetryableError]. destruct (isRetryableError _);
      intros Heq; injection Heq as _ <-; reflexivity.
Qed.

(** X14.  The first call through a client that [New] has just built, whatever
    the [Config] and whenever it is made, is not turned away by the
    breaker: if its request can be built and the call returns, it has made
    a transport call. *)
Theorem new_client_reaches_transport
        (cfg : Config float64 zapLogger) t0
        fuel ctx method path body headers (s s' : State B) ret bodyBytes :
  let c := newClient (New nop cfg t0) in
  breaker s = newBreaker (New nop cfg t0) ->
  marshalBody env body = inl bodyBytes ->
  NewRequest_err env method (baseURL c ++ path) = None ->
  doRequest env c fuel ctx method path body headers s = Some (ret, s') ->
  exists sent rt more, trips s' = (trips s ++ (sent, rt) :: more)%list.
Proof.
  intros c Hcb Hm Hn. unfold doRequest. rewrite Hm, Hn. unfold Retry.
  set (req := newRequest env method (baseURL c ++ path) bodyBytes headers).
  set (s0 := set_retryBackoff _ _).
  assert (Hadm : admitted c s0).
  { unfold admitted. apply closed_breaker_admits.
    subst s0. cbn. rewrite Hcb. reflexivity. }
  assert (Htr0 : trips s0 = trips s) by reflexivity.
  destruct (RetryLoop fuel (operation env c req) ctx s0) as [[err s1]|]
    eqn:Hloop; [|discriminate].
  cbn [option_map]. intros Heq. injection Heq as Heq.
  assert (Htrips : trips s' = trips s1).
  { unfold finish in Heq. destruct err as [e|].
    - injection Heq as _ <-. reflexivity.
    - destruct (resp s1) as [r|]; injection Heq as _ <-;
        [destruct (400 <=? StatusCode r)|]; reflexivity. }
  rewrite Htrips, <- Htr0. clear Heq Htrips.
  destruct fuel as [|fuel]; [discriminate|]. cbn [RetryLoop] in Hloop.
  destruct (operation env c req s0) as [[e|] s2] eqn:Hop;
    pose proof (operation_admitted_trip _ _ _ _ _ Hadm Hop) as Hone.
  - destruct (As_PermanentError e).
    { injection Hloop as _ <-. do 2 eexists. exists []. exact Hone. }
    destruct (backoff.WithContext_NextBackOff _ _ _) as [next b].
    destruct (next =? backoff.Stop).
    + destruct (context.Err _ _); injection Hloop as _ <-;
        do 2 eexists; exists []; exact Hone.
    + destruct (backoff.wait _ _ _) as [t [cerr|]].
      * injection Hloop as _ <-. do 2 eexists. exists []. exact Hone.
      * destruct (RetryLoop_continues _ _ _ _ _ _ _ _ Hloop)
          as (more & Hmore & _).
        cbn in Hmore. do 2 eexists. exists more.
        rewrite Hmore, Hone, <- app_assoc. reflexivity.
  - injection Hloop as _ <-. do 2 eexists. exists []. exact Hone.
Qed.

(** X13.  With the settings of [DefaultConfig], a closed breaker that has seen
    [k] failures in a row stays closed after one more failed attempt as
    long as [k] is below 5, and counts it; at [k = 5], on the sixth
    failure in a row, it opens for 30 seconds.  (The counting window of
    the breaker does not run out during the attempt.) *)
Theorem default_breaker_opens_on_sixth_failure
        f2 f05 url name logger t0
        fuel ctx req (s : State B) h body k window :
  let c := newClient (New nop (DefaultConfig (float64 := float64) f2 f05
                                             url name logger) t0) in
  let now := clock s + took (nextTrip env req s) in
  gobreaker.state (breaker s) = gobreaker.StateClosed ->
  gobreaker.expiry (breaker s) = Some window ->
  clock s <= window -> now <= window ->
  gobreaker.ConsecutiveFailures (gobreaker.counts (breaker s)) = k ->
  0 <= k <= 5 ->
  outcome (nextTrip env req s) = inl h ->
  http_Body h = inl body ->
  500 <= http_StatusCode h \/ http_StatusCode h = 429 ->
  exists ret s',
    resume env c (S fuel) ctx req s = Some (ret, s')
    /\ gobreaker.state (breaker s')
       = (if k =? 5 then gobreaker.StateOpen else gobreaker.StateClosed)
    /\ (k < 5 ->
        gobreaker.ConsecutiveFailures (gobreaker.counts (breaker s'))
        = k + 1)
    /\ (k = 5 -> gobreaker.expiry (breaker s') = Some (now + 30 * Second)).
Proof.
  intros c now Hst Hexp Hw0 Hw1 Hk Hrange Hout Hbody Hstatus.
  subst now. unfold nextTrip in *.
  destruct s as [clk cb bo off sp lg rs tr it].
  destruct cb as [cst cgen ccnt cexp cchg].
  destruct ccnt as [creq cts ctf ccs ccf].
  cbn in Hst, Hexp, Hk, Hw0, Hw1, Hout. subst cst cexp ccf.
  unfold resume. cbn [RetryLoop]. unfold operation, Execute.
  unfold gobreaker.beforeRequest, gobreaker.currentState.
  cbn -[isRetryableError Z.add Z.mul gobreaker.afterRequest].
  replace (window <? clk) with false by (symmetry; apply Z.ltb_ge; lia).
  cbn -[isRetryableError Z.add Z.mul gobreaker.afterRequest].
  unfold roundTrip.
  cbn -[isRetryableError Z.add Z.mul gobreaker.afterRequest].
  rewrite Hout, Hbody.
  replace ((500 <=? http_StatusCode h) || (http_StatusCode h =? 429))
    with true
    by (symmetry; apply orb_true_iff; destruct Hstatus as [H5 | H4];
        [left; apply Z.leb_le; exact H5 | right; apply Z.eqb_eq; exact H4]).
  cbn -[Z.add Z.mul gobreaker.afterRequest].
  do 2 eexists. split; [reflexivity|].
  cbn -[Z.add Z.mul gobreaker.afterRequest].
  unfold gobreaker.afterRequest, gobreaker.currentState.
  cbn -[Z.add Z.mul].
  replace (window <? clk + took (Do env (List.length tr) req
                                    (unread req off)))
    with false by (symmetry; apply Z.ltb_ge; lia).
  cbn -[Z.add Z.mul]. rewrite Z.eqb_refl. cbn -[Z.add Z.mul].
  assert (Hcases : k = 0 \/ k = 1 \/ k = 2 \/ k = 3 \/ k = 4 \/ k = 5)
    by lia.
  destruct Hcases as [-> | [-> | [-> | [-> | [-> | ->]]]]];
    cbn -[Z.add Z.mul]; (split; [reflexivity|]);
    (split; [intros; try reflexivity; lia|]);
    intros; try reflexivity; lia.
Qed.

End Built.

(** * Instances of the further theorems *)

Lemma create_request_failure_witness :
  exists s',
    doRequest strict client 0 context.Background "GET" "/%zz" None [] fresh
    = Some (Returns None (Some (wrapError "create request: " badEscape)), s')
    /\ trips s' = []
    /\ iterations s' = 0%nat
    /\ breaker s' = breaker fresh
    /\ retryBackoff s' = retryBackoff fresh
    /\ logs s' = []
    /\ status (span s') = (codes.Error, Error badEscape)
    /\ recorded (span s') = [badEscape]
    /\ ended (span s') = true.
Proof.
  exact (create_request_failure_returns_early
           strict client 0 context.Background "GET" "/%zz" None [] fresh
           None badEscape eq_refl eq_refl).
Defined.

Lemma read_failure_witness :
  exists s',
    resume (env truncated) client 3 context.Background getUser fresh
    = Some (Returns None
              (Some (wrapError "request failed: "
                       (wrapError "read response: "
                          (errorString "connection reset")))), s')
    /\ trips s'
       = [(nextSent (env truncated) getUser fresh,
           nextTrip (env truncated) getUser fresh)]
    /\ iterations s' = 1%nat.
Proof.
  apply (read_failure_is_terminal
           (env truncated) client 2 context.Background getUser fresh
           cut (errorString "connection reset")).
  - vm_compute. reflexivity.
  - reflexivity.
  - reflexivity.
Defined.

Lemma breaker_rejection_witness :
  turnedAway client probing gobreaker.ErrTooManyRequests
  /\ exists s',
      resume (env (always 200)) client 3 context.Background getUser probing
      = Some (Returns None
                (Some (wrapError "request failed: "
                         gobreaker.ErrTooManyRequests)), s')
      /\ trips s' = []
      /\ iterations s' = 1%nat
      /\ clock s' = clock probing
      /\ retryBackoff s' = retryBackoff probing.
Proof.
  assert (Hrej : turnedAway client probing gobreaker.ErrTooManyRequests)
    by (vm_compute; reflexivity).
  split; [exact Hrej|].
  exact (proj2 (breaker_rejection_is_terminal
                  (env (always 200)) client 2 context.Background getUser
                  probing gobreaker.ErrTooManyRequests Hrej)).
Defined.

Lemma get_sends_nothing_witness :
  exists ret s',
    Get (env (always 404)) client 5 context.Background "/api/v1/users/7" []
        fresh
    = Some (ret, s')
    /\ exists added,
        trips s' = (trips fresh ++ added)%list
        /\ Forall (fun t => fst t = []) added.
Proof.
  do 2 eexists. split; [vm_compute; reflexivity|].
  eapply (get_and_delete_send_nothing
            (env (always 404)) client 5 context.Background
            "/api/v1/users/7" [] fresh).
  left. vm_compute. reflexivity.
Defined.

Lemma error_return_witness :
  exists r e s',
    doRequest (env flaky) client 5 context.Background
              "GET" "/api/v1/users/7" None [] fresh
    = Some (Returns r (Some e), s')
    /\ r = None
    /\ exists prefix cause,
        e = wrapError prefix cause
        /\ (prefix = "marshal request body: " \/ prefix = "create request: "
            \/ prefix = "request failed: ")
        /\ status (span s') = (codes.Error, Error cause)
        /\ exists before, recorded (span s') = (before ++ [cause])%list.
Proof.
  do 3 eexists. split; [vm_compute; reflexivity|].
  eapply (error_return_marks_span
            (env flaky) client 5 context.Background
            "GET" "/api/v1/users/7" None [] fresh).
  vm_compute. reflexivity.
Defined.

Lemma returned_status_witness :
  exists r s',
    doRequest (env (always 404)) client 5 context.Background
              "GET" "/api/v1/users/7" None [] fresh
    = Some (Returns (Some r) None, s')
    /\ (None : option error) = None
    /\ StatusCode r < 500 /\ StatusCode r <> 429
    /\ (IsSuccess r = true -> status (span s') = (codes.Ok, "success")).
Proof.
  do 2 eexists. split; [vm_compute; reflexivity|].
  eapply (returned_status_below_500
            (env (always 404)) client 5 context.Background
            "GET" "/api/v1/users/7" None [] fresh).
  vm_compute. reflexivity.
Defined.

Lemma caller_header_witness :
  Header_get
    (ReqHeader
       (newRequest (env (always 200)) "GET" "http://auth-api:4101/x" None
                   [("Accept", "text/plain"); ("X-Tenant", "acme");
                    ("Accept", "text/csv")]))
    "Accept"
  = Some ["text/csv"].
Proof.
  apply (caller_header_wins
           (env (always 200)) "GET" "http://auth-api:4101/x" None
           [("Accept", "text/plain"); ("X-Tenant", "acme");
            ("Accept", "text/csv")]
           [("Accept", "text/plain"); ("X-Tenant", "acme")]
           "Accept" "text/csv" []).
  - reflexivity.
  - constructor.
Defined.

Lemma default_headers_witness :
  let h := ReqHeader
             (newRequest (env (always 200)) "GET" "http://auth-api:4101/x"
                         None [("X-Tenant", "acme")]) in
  Header_get h "Content-Type" = Some ["application/json"]
  /\ Header_get h "Accept" = Some ["application/json"].
Proof.
  apply (default_headers_are_json
           (env (always 200)) "GET" "http://auth-api:4101/x" None
           [("X-Tenant", "acme")]).
  - simpl. intros H. inversion H.
  - constructor; [|constructor]. simpl. split; intros H; inversion H.
Defined.

Lemma new_client_witness :
  exists ret s' sent rt more,
    doRequest (env (always 200)) (newClient built) 5 context.Background
              "GET" "/api/v1/users/7" None [] unused
    = Some (ret, s')
    /\ trips s' = (trips unused ++ (sent, rt) :: more)%list.
Proof.
  do 2 eexists.
  assert (Hrun : doRequest (env (always 200)) (newClient built) 5
                           context.Background "GET" "/api/v1/users/7" None
                           [] unused = Some (_, _))
    by (vm_compute; reflexivity).
  destruct (new_client_reaches_transport
              (env (always 200)) "nop" defaults 0 5 context.Background
              "GET" "/api/v1/users/7" None [] unused _ _ None
              eq_refl eq_refl eq_refl Hrun)
    as (sent & rt & more & Htrips).
  exists sent, rt, more. split; [exact Hrun|exact Htrips].
Defined.

Lemma sixth_failure_witness :
  exists ret s',
    resume (env flaky) (newClient built) 1 context.Background getUser
           strained
    = Some (ret, s')
    /\ gobreaker.state (breaker s') = gobreaker.StateOpen
    /\ gobreaker.expiry (breaker s')
       = Some (10 * Second + 20 * Millisecond + 30 * Second).
Proof.
  destruct (default_breaker_opens_on_sixth_failure
              (env flaky) "nop" (1, 1) (1, -1)
              "http://auth-api:4101" "auth-service" (Some "zap") 0
              0 context.Background getUser strained
              (reply 503 "unavailable") (list_byte_of_string "unavailable")
              5 (60 * Second)
              eq_refl eq_refl ltac:(vm_compute; discriminate)
              ltac:(vm_compute; discriminate) eq_refl ltac:(lia)
              eq_refl eq_refl ltac:(left; simpl; lia))
    as (ret & s' & Hrun & Hstate & _ & Hexp).
  exists ret, s'. split; [exact Hrun|]. split; [exact Hstate|].
  exact (Hexp eq_refl).
Defined.

(** * Calls through [http.Client.Do] *)

Section Single.

Context {B : Type} {policy : backoff.BackOff B} {V : Type}.
Variable env : Env V.
Hypothesis Hdo : returnsURLErrors env.

Lemma hasQuote_app a b : hasQuote (a ++ b) = hasQuote a || hasQuote b.
Proof.
  induction a as [|x a IH]; cbn; [reflexivity|].
  rewrite IH. apply orb_assoc.
Qed.

(** No [*url.Error] reads as one of the four texts: its text holds a
    double quote and none of them does. *)
Lemma urlError_not_retryable op url cause :
  isRetryableError (Some (urlError op url cause)) = false.
Proof.
  assert (Hq : hasQuote (Error (urlError op url cause)) = true).
  { unfold urlError. cbn [Error]. rewrite !hasQuote_app. cbn.
    rewrite !orb_true_r. reflexivity. }
  unfold isRetryableError.
  repeat match goal with
         | |- context [(?a =? ?b)%string] =>
             let H := fresh "H" in
             destruct (a =? b)%string eqn:H;
             [apply String.eqb_eq in H; rewrite H in Hq; discriminate Hq|]
         end.
  reflexivity.
Qed.

(** What an iteration changes besides the breaker, the span and [resp]. *)
Lemma operation_step c req (s s1 : State B) err :
  operation env c req s = (err, s1) ->
  retryBackoff s1 = retryBackoff s
  /\ iterations s1 = S (iterations s)
  /\ ((trips s1 = trips s /\ clock s1 = clock s)
      \/ (trips s1
          = (trips s ++ [(nextSent env req s, nextTrip env req s)])%list
          /\ clock s1 = clock s + took (nextTrip env req s))).
Proof.
  unfold operation, Execute, nextSent, nextTrip.
  destruct (gobreaker.beforeRequest _ _ _) as [[cb1 gen] [e|]].
  - cbn -[isRetryableError]. destruct (isRetryableError _);
      intros Heq; injection Heq as _ <-; cbn; auto.
  - unfold roundTrip.
    destruct (outcome _) as [h|e].
    + destruct (http_Body h) as [b|readErr].
      * destruct (_ || _); cbn -[isRetryableError];
          try destruct (isRetryableError _);
          intros Heq; injection Heq as _ <-; cbn; auto.
      * cbn -[isRetryableError]. destruct (isRetryableError _);
          intros Heq; injection Heq as _ <-; cbn; auto.
    + cbn -[isRetryableError]. destruct (isRetryableError _);
        intros Heq; injection Heq as _ <-; cbn; auto.
Qed.

(** With the errors of [http.Client.Do], an iteration that fails fails for
    good. *)
Lemma operation_ends c req (s s1 : State B) err :
  operation env c req s = (err, s1) ->
  err = None \/ exists e, err = Some (PermanentError e).
Proof.
  unfold operation, Execute.
  destruct (gobreaker.beforeRequest _ _ _) as [[cb1 gen] [e|]] eqn:Hb.
  - assert (Hnot : isRetryableError (Some e) = false)
      by (destruct (beforeRequest_error _ _ _ _ _ _ Hb); subst e;
          reflexivity).
    cbn -[isRetryableError]. rewrite Hnot. cbn.
    intros Heq. injection Heq as <- _. right. eexists. reflexivity.
  - unfold roundTrip.
    destruct (outcome _) as [h|e] eqn:Hout.
    + destruct (http_Body h) as [b|readErr].
      * destruct (_ || _); cbn -[isRetryableError].
        -- destruct (isRetryableError _) eqn:Hr; [cbn in Hr; discriminate|].
           cbn. intros Heq. injection Heq as <- _.
           right. eexists. reflexivity.
        -- intros Heq. injection Heq as <- _. left. reflexivity.
      * cbn -[isRetryableError].
        destruct (isRetryableError _) eqn:Hr; [cbn in Hr; discriminate|].
        cbn. intros Heq. injection Heq as <- _.
        right. eexists. reflexivity.
    + destruct (Hdo _ _ _ _ Hout) as (op & url & cause & ->).
      cbn -[isRetryableError urlError].
      rewrite urlError_not_retryable. cbn -[urlError].
      intros Heq. injection Heq as <- _. right. eexists. reflexivity.
Qed.

(** So the retry loop runs its closure once. *)
Lemma RetryLoop_once fuel ctx c req (s : State B) :
  exists r,
    RetryLoop (S fuel) (operation env c req) ctx s
    = Some (r, snd (operation env c req s)).
Proof.
  cbn [RetryLoop].
  destruct (operation env c req s) as [err s1] eqn:Hop.
  destruct (operation_ends _ _ _ _ _ Hop) as [-> | [e ->]]; cbn;
    eexists; reflexivity.
Qed.

Lemma finish_keeps method url r (s1 s' : State B) ret :
  finish method url (r, s1) = (ret, s') ->
  trips s' = trips s1 /\ clock s' = clock s1
  /\ iterations s' = iterations s1 /\ retryBackoff s' = retryBackoff s1
  /\ breaker s' = breaker s1.
Proof.
  unfold finish. destruct r as [e|].
  - intros Heq. injection Heq as _ <-. cbn. auto.
  - destruct (resp s1) as [r|]; intros Heq; injection Heq as _ <-;
      [destruct (400 <=? StatusCode r)|]; cbn; auto.
Qed.

(** A call whose request could be built returns after one iteration of the
    loop, given any fuel: the policy has been reset and not asked, and the
    clock has moved by the one call of [httpClient.Do], if the breaker let
    it through. *)
Lemma call_once c fuel ctx method path body headers (s : State B)
      bodyBytes :
  marshalBody env body = inl bodyBytes ->
  NewRequest_err env method (baseURL c ++ path) = None ->
  let rt := firstTrip env c method path bodyBytes headers s in
  exists ret s',
    doRequest env c (S fuel) ctx method path body headers s = Some (ret, s')
    /\ iterations s' = S (iterations s)
    /\ retryBackoff s' = backoff.Reset (retryBackoff s) (clock s)
    /\ ((trips s' = trips s /\ clock s' = clock s)
        \/ (trips s'
            = (trips s ++ [(firstn (consumed rt) (bytesOf bodyBytes), rt)])%list
            /\ clock s' = clock s + took rt)).
Proof.
  intros Hm Hn rt. subst rt. unfold firstTrip, doRequest.
  rewrite Hm, Hn. unfold Retry.
  set (req := newRequest env method (baseURL c ++ path) bodyBytes headers).
  set (s0 := set_retryBackoff _ _).
  destruct (RetryLoop_once fuel ctx c req s0) as [r Hloop]. rewrite Hloop.
  destruct (operation env c req s0) as [err s1] eqn:Hop.
  cbn [snd option_map].
  destruct (finish method (baseURL c ++ path) (r, s1)) as [ret s'] eqn:Hfin.
  exists ret, s'. split; [reflexivity|].
  destruct (finish_keeps _ _ _ _ _ _ Hfin) as (Ft & Fc & Fi & Fb & _).
  destruct (operation_step _ _ _ _ _ Hop) as (Ob & Oi & Ot).
  rewrite Ft, Fc, Fi, Fb, Ob, Oi.
  split; [reflexivity|]. split; [reflexivity|].
  assert (Hunread : unread req 0 = bytesOf bodyBytes)
    by (subst req; unfold unread; destruct bodyBytes; reflexivity).
  unfold nextSent, nextTrip in Ot. cbn in Ot. rewrite Hunread in Ot.
  exact Ot.
Qed.

End Single.

(** * The attempts of a call *)

Section Attempts.

Context {B : Type} {policy : backoff.BackOff B} {V : Type}.
Context {float64 zapLogger : Type}.
Variable env : Env V.
Variable nop : zapLogger.



End Attempts.

(** * Answered attempts *)

Section Answered.

Context {B : Type} {policy : backoff.BackOff B} {V : Type}.
Variable env : Env V.
Variable c : Client.

(** The iteration that made an answered transport call reported no error
    and stored the response. *)
Lemma operation_answered req (s s1 : State B) err t h b :
  operation env c req s = (err, s1) ->
  trips s1 = (trips s ++ [t])%list ->
  answered t h b ->
  err = None /\ resp s1 = Some (asResponse h b).
Proof.
  unfold operation, Execute, answered.
  destruct (gobreaker.beforeRequest _ _ _) as [[cb1 gen] [e|]].
  - cbn -[isRetryableError]. destruct (isRetryableError _);
      intros Heq; injection Heq as _ <-; cbn; intros Ht;
      apply (f_equal (@List.length _)) in Ht; rewrite length_app in Ht;
      cbn in Ht; lia.
  - unfold roundTrip. cbn -[isRetryableError].
    destruct (outcome _) as [h1|e] eqn:Hout.
    + destruct (http_Body h1) as [b1|readErr] eqn:Hbody.
      * destruct (_ || _) eqn:Htest; cbn -[isRetryableError];
          try destruct (isRetryableError _);
          intros Heq; injection Heq as <- <-; cbn; intros Ht;
          apply app_inv_head in Ht; injection Ht as <-;
          cbn; intros (Ho & Hb & Hlt & Hne);
          rewrite Hout in Ho; injection Ho as <-;
          rewrite Hbody in Hb; injection Hb as <-.
        -- apply orb_true_iff in Htest.
           destruct Htest as [H5 | H4];
             [apply Z.leb_le in H5 | apply Z.eqb_eq in H4]; lia.
        -- apply orb_true_iff in Htest.
           destruct Htest as [H5 | H4];
             [apply Z.leb_le in H5 | apply Z.eqb_eq in H4]; lia.
        -- split; reflexivity.
      * cbn -[isRetryableError]. destruct (isRetryableError _);
          intros Heq; injection Heq as <- <-; cbn; intros Ht;
          apply app_inv_head in Ht; injection Ht as <-;
          cbn; intros (Ho & Hb & _);
          rewrite Hout in Ho; injection Ho as <-;
          rewrite Hbody in Hb; discriminate.
    + cbn -[isRetryableError]. destruct (isRetryableError _);
        intros Heq; injection Heq as <- <-; cbn; intros Ht;
        apply app_inv_head in Ht; injection Ht as <-;
        cbn; intros (Ho & _); rewrite Hout in Ho; discriminate.
Qed.

Lemma retried_not_answered t h b : retried t -> answered t h b -> False.
Proof.
  intros (e & He & _) (Ho & _). rewrite He in Ho. discriminate.
Qed.

(** Where the loop stops after an iteration, an answered call of that
    iteration is the whole trace, and the loop reports no error. *)
Lemma stop_answered req (s s1 s2 : State B) operr (r : option error) :
  operation env c req s = (operr, s1) ->
  trips s2 = trips s1 -> resp s2 = resp s1 ->
  (operr = None -> r = None) ->
  exists added,
    trips s2 = (trips s ++ added)%list
    /\ forall i t h b,
        nth_error added i = Some t -> answered t h b ->
        S i = List.length added
        /\ r = None /\ resp s2 = Some (asResponse h b).
Proof.
  intros Hop Ht2 Hr2 Hnone.
  destruct (operation_trace env c _ _ _ _ Hop) as [[Hsame | [t1 Hone]] _].
  - exists []. rewrite app_nil_r, Ht2. split; [exact Hsame|].
    intros [|i] t h b Hnth; discriminate.
  - exists [t1]. rewrite Ht2. split; [exact Hone|].
    intros [|[|i]] t h b Hnth Hans; try discriminate.
    injection Hnth as <-.
    destruct (operation_answered _ _ _ _ _ _ _ Hop Hone Hans)
      as [Hnoerr Hresp].
    split; [reflexivity|]. rewrite Hr2. split; [auto|exact Hresp].
Qed.

(** In the trace of the loop an answered call is the last one, and the
    loop ended on it without error, with its response stored. *)
Lemma RetryLoop_answered fuel ctx req : forall (s s' : State B) err,
  RetryLoop fuel (operation env c req) ctx s = Some (err, s') ->
  exists added,
    trips s' = (trips s ++ added)%list
    /\ forall i t h b,
        nth_error added i = Some t -> answered t h b ->
        S i = List.length added
        /\ err = None /\ resp s' = Some (asResponse h b).
Proof.
  induction fuel as [|fuel IH]; intros s s' err; [discriminate|].
  cbn [RetryLoop].
  destruct (operation env c req s) as [[e|] s1] eqn:Hop.
  - destruct (As_PermanentError e) eqn:Hperm.
    { intros Heq. injection Heq as <- <-.
      eapply stop_answered; [exact Hop|reflexivity|reflexivity|discriminate]. }
    destruct (backoff.WithContext_NextBackOff _ _ _) as [next b0].
    destruct (next =? backoff.Stop).
    + destruct (context.Err _ _); intros Heq; injection Heq as <- <-;
        (eapply stop_answered;
         [exact Hop|reflexivity|reflexivity|discriminate]).
    + destruct (backoff.wait _ _ _) as [t0 [cerr|]].
      * intros Heq. injection Heq as <- <-.
        eapply stop_answered;
          [exact Hop|reflexivity|reflexivity|discriminate].
      * intros Hrest. apply IH in Hrest. cbn in Hrest.
        destruct Hrest as (added & Htrips & Hlast).
        destruct (operation_trace env c _ _ _ _ Hop) as [_ Hretried].
        destruct (Hretried e eq_refl Hperm) as (t1 & Hone & Hret).
        exists (t1 :: added). split.
        { rewrite Htrips, Hone, <- app_assoc. reflexivity. }
        intros [|i] t h b Hnth Hans.
        -- injection Hnth as <-.
           destruct (retried_not_answered _ _ _ Hret Hans).
        -- destruct (Hlast i t h b Hnth Hans) as (Hlen & Herr & Hresp).
           cbn. rewrite <- Hlen. auto.
  - intros Heq. injection Heq as <- <-.
    eapply stop_answered; [exact Hop|reflexivity|reflexivity|reflexivity].
Qed.

End Answered.

(** * Returned responses *)

Section Returned.

Context {B : Type} {policy : backoff.BackOff B} {V : Type}.
Variable env : Env V.
Variable c : Client.

(** C5. In every call of [doRequest] that returns, a transport call whose
    response has a status below 500 other than 429 and whose body was read
    in full is the last transport call of the call, and [doRequest]
    returns that response, status, headers and body bytes, with a nil
    error; a 404 so returned is not a success.  And when the first
    attempt of a call is admitted by the breaker and brings such a
    response, the call does return it, after that one attempt and one
    iteration, whatever fuel is left. *)
Theorem terminal_status_ends_call
        fuel ctx method path body headers (s : State B) :
  (forall ret s',
      doRequest env c fuel ctx method path body headers s = Some (ret, s') ->
      exists added,
        trips s' = (trips s ++ added)%list
        /\ forall i t h b,
            nth_error added i = Some t -> answered t h b ->
            S i = List.length added
            /\ ret = Returns (Some (asResponse h b)) None
            /\ (http_StatusCode h = 404 ->
                IsSuccess (asResponse h b) = false))
  /\ (forall bodyBytes h b,
         marshalBody env body = inl bodyBytes ->
         NewRequest_err env method (baseURL c ++ path) = None ->
         admitted c s ->
         let rt := firstTrip env c method path bodyBytes headers s in
         outcome rt = inl h ->
         http_Body h = inl b ->
         http_StatusCode h < 500 -> http_StatusCode h <> 429 ->
         exists s',
           doRequest env c (S fuel) ctx method path body headers s
           = Some (Returns (Some (asResponse h b)) None, s')
           /\ trips s'
              = (trips s
                 ++ [(firstn (consumed rt) (bytesOf bodyBytes), rt)])%list
           /\ iterations s' = S (iterations s)).
Proof.
  split.
  - intros ret s'. unfold doRequest.
    destruct (marshalBody env body) as [bodyBytes|err].
    + destruct (NewRequest_err env method _) as [err|].
      * intros Heq. injection Heq as _ <-. exists []. cbn.
        rewrite app_nil_r. split; [reflexivity|].
        intros [|i] t h b Hnth; discriminate.
      * unfold Retry.
        destruct (RetryLoop _ _ _ _) as [[err s1]|] eqn:Hloop;
          [|discriminate].
        destruct (RetryLoop_answered env c _ _ _ _ _ _ Hloop)
          as (added & Ht & Hlast).
        cbn in Ht. cbn [option_map]. intros Heq. injection Heq as Heq.
        destruct (finish_keeps _ _ _ _ _ _ Heq) as (Ft & _).
        exists added. split; [rewrite Ft; exact Ht|].
        intros i t h b Hnth Hans.
        destruct (Hlast i t h b Hnth Hans) as (Hlen & -> & Hresp).
        split; [exact Hlen|].
        unfold finish in Heq. rewrite Hresp in Heq.
        injection Heq as <- _. split; [reflexivity|].
        intros H404. unfold IsSuccess, asResponse. cbn. rewrite H404.
        reflexivity.
    + intros Heq. injection Heq as _ <-. exists []. cbn.
      rewrite app_nil_r. split; [reflexivity|].
      intros [|i] t h b Hnth; discriminate.
  - intros bodyBytes h b Hm Hn Hadm rt Hout Hbody Hlt Hne.
    destruct (doRequest_resume env c (S fuel) ctx method path body headers s
                               bodyBytes Hm Hn)
      as (s1 & Hrun & Htrips & Hiter & Hclock & Hbreaker & Hoffset & _).
    set (req := newRequest env method (baseURL c ++ path) bodyBytes headers)
      in *.
    assert (Hadm1 : admitted c s1)
      by (unfold admitted in *; rewrite Hbreaker, Hclock; exact Hadm).
    assert (Hrt : nextTrip env req s1 = rt).
    { unfold nextTrip, rt, firstTrip. rewrite Htrips, Hoffset.
      reflexivity. }
    assert (Hsent : nextSent env req s1
                    = firstn (consumed rt) (bytesOf bodyBytes)).
    { unfold nextSent. rewrite Hrt, Hoffset. reflexivity. }
    rewrite <- Hrt in Hout.
    destruct (operation_response env c req s1 h b Hadm1 Hout Hbody Hlt Hne)
      as (s2 & Hop & Hresp & Ht2 & Hi2 & _).
    rewrite Hrun. unfold resume.
    rewrite (RetryLoop_success_now fuel _ ctx s1 s2 Hop).
    cbn [option_map finish]. rewrite Hresp.
    eexists. split; [reflexivity|].
    rewrite <- Htrips, <- Hiter, <- Hsent, <- Hrt.
    destruct (400 <=? StatusCode (asResponse h b)); cbn; auto.
Qed.

(** X12.  A response with a status below 500 other than 429 whose body
    was read in full is counted by the breaker as a success: through a
    closed breaker whose counting window does not run out during the
    attempt, the call leaves the breaker closed with the request and the
    success counted and the failures in a row back at zero, so client
    errors such as 404 cannot trip it. *)
Theorem terminal_status_counts_as_success
        fuel ctx method path body headers (s : State B) bodyBytes h b window :
  let rt := firstTrip env c method path bodyBytes headers s in
  marshalBody env body = inl bodyBytes ->
  NewRequest_err env method (baseURL c ++ path) = None ->
  gobreaker.state (breaker s) = gobreaker.StateClosed ->
  gobreaker.expiry (breaker s) = Some window ->
  clock s <= window -> clock s + took rt <= window ->
  outcome rt = inl h ->
  http_Body h = inl b ->
  http_StatusCode h < 500 -> http_StatusCode h <> 429 ->
  exists ret s',
    doRequest env c (S fuel) ctx method path body headers s = Some (ret, s')
    /\ gobreaker.state (breaker s') = gobreaker.StateClosed
    /\ gobreaker.counts (breaker s')
       = gobreaker.Counts_onSuccess
           (gobreaker.Counts_onRequest (gobreaker.counts (breaker s)))
    /\ gobreaker.ConsecutiveFailures (gobreaker.counts (breaker s')) = 0
    /\ gobreaker.TotalFailures (gobreaker.counts (breaker s'))
       = gobreaker.TotalFailures (gobreaker.counts (breaker s)).
Proof.
  intros rt Hm Hn Hst Hexp Hw0 Hw1 Hout Hbody Hlt Hne.
  subst rt. unfold firstTrip in *. unfold doRequest. rewrite Hm, Hn.
  unfold Retry.
  set (req := newRequest env method (baseURL c ++ path) bodyBytes headers)
    in *.
  assert (Hunread : unread req 0 = bytesOf bodyBytes)
    by (subst req; unfold unread; destruct bodyBytes; reflexivity).
  destruct s as [clk cb bo off sp lg rs tr it].
  destruct cb as [cst cgen ccnt cexp cchg].
  cbn in Hst, Hexp, Hw0, Hw1, Hout. subst cst cexp.
  cbn [RetryLoop]. unfold operation, Execute.
  unfold gobreaker.beforeRequest, gobreaker.currentState.
  cbn -[Z.add Z.mul gobreaker.afterRequest unread req].
  replace (window <? clk) with false by (symmetry; apply Z.ltb_ge; lia).
  cbn -[Z.add Z.mul gobreaker.afterRequest unread req].
  unfold roundTrip.
  cbn -[Z.add Z.mul gobreaker.afterRequest unread req].
  rewrite Hunread, Hout, Hbody.
  replace (500 <=? http_StatusCode h) with false
    by (symmetry; apply Z.leb_gt; lia).
  replace (http_StatusCode h =? 429) with false
    by (symmetry; apply Z.eqb_neq; lia).
  cbn -[Z.add Z.mul gobreaker.afterRequest unread req].
  do 2 eexists. split; [reflexivity|].
  assert (Hafter :
            gobreaker.afterRequest
              (circuitBreaker c)
              {| gobreaker.state := gobreaker.StateClosed;
                 gobreaker.generation := cgen;
                 gobreaker.counts := gobreaker.Counts_onRequest ccnt;
                 gobreaker.expiry := Some window;
                 gobreaker.changes := cchg |}
              cgen true
              (clk + took (Do env (List.length tr) req (bytesOf bodyBytes)))
            = {| gobreaker.state := gobreaker.StateClosed;
                 gobreaker.generation := cgen;
                 gobreaker.counts :=
                   gobreaker.Counts_onSuccess
                     (gobreaker.Counts_onRequest ccnt);
                 gobreaker.expiry := Some window;
                 gobreaker.changes := cchg |}).
  { unfold gobreaker.afterRequest, gobreaker.currentState.
    cbn -[Z.add Z.mul gobreaker.Counts_onSuccess
          gobreaker.Counts_onRequest].
    replace (window <? clk + took (Do env (List.length tr) req
                                      (bytesOf bodyBytes)))
      with false by (symmetry; apply Z.ltb_ge; lia).
    cbn -[Z.add Z.mul gobreaker.Counts_onSuccess
          gobreaker.Counts_onRequest].
    rewrite Z.eqb_refl. reflexivity. }
  destruct (400 <=? http_StatusCode h);
    cbn -[Z.add Z.mul gobreaker.afterRequest unread req
          gobreaker.Counts_onSuccess gobreaker.Counts_onRequest];
    rewrite Hafter; cbn; auto.
Qed.

(** X15.  Whenever [doRequest] returns, with a response or with an error,
    the span it started has been ended, and it is the span named after
    the method and the path whose first attributes are the method, the
    full URL and the service name. *)
Theorem span_ended_on_every_return
        fuel ctx method path body headers (s s' : State B) r e :
  doRequest env c fuel ctx method path body headers s
  = Some (Returns r e, s') ->
  ended (span s') = true
  /\ spanName (span s') = method ++ " " ++ path
  /\ exists more,
      attributes (span s')
      = ([("http.method", AttrString method);
          ("http.url", AttrString (baseURL c ++ path));
          ("service.name", AttrString (serviceName c))] ++ more)%list.
Proof.
  unfold doRequest.
  destruct (marshalBody env body) as [bodyBytes|err].
  - destruct (NewRequest_err env method _) as [err|].
    + intros Heq. injection Heq as _ _ <-. cbn.
      repeat split. exists []. reflexivity.
    + unfold Retry.
      destruct (RetryLoop _ _ _ _) as [[err s1]|] eqn:Hloop; [|discriminate].
      apply RetryLoop_frame in Hloop. cbn in Hloop.
      destruct Hloop as (Hname & Hattrs & _).
      cbn [option_map]. unfold finish. destruct err as [e1|].
      * intros Heq. injection Heq as _ _ <-. cbn. rewrite Hname, Hattrs.
        repeat split. exists []. reflexivity.
      * destruct (resp s1) as [r1|]; [|discriminate].
        intros Heq. injection Heq as _ _ <-.
        destruct (400 <=? StatusCode r1); cbn; rewrite Hname, Hattrs;
          repeat split; eexists; reflexivity.
  - intros Heq. injection Heq as _ _ <-. cbn.
    repeat split. exists []. reflexivity.
Qed.

End Returned.

(** * Instances of the theorems on attempts *)

Lemma dropping_returns_url_errors : returnsURLErrors (env dropping).
Proof.
  intros n req avail e H. injection H as <-. do 3 eexists. reflexivity.
Qed.

Lemma refusing_returns_url_errors : returnsURLErrors (env refusing).
Proof.
  intros n req avail e H. injection H as <-. do 3 eexists. reflexivity.
Qed.

(** A POST whose connection drops after the body went out: one attempt,
    with the whole body, although the cause reads "connection reset". *)
Example dropped_post_run :
  exists e s',
    Post (env dropping) client 5 context.Background "/api/v1/items"
         (Some (RawMessage "[1,2,3]")) [] fresh
    = Some (Returns None (Some (wrapError "request failed: " e)), s')
    /\ e = urlError "Post" "http://auth-api:4101/api/v1/items"
                    (errorString "connection reset")
    /\ map fst (trips s') = [list_byte_of_string "[1,2,3]"]
    /\ iterations s' = 1%nat.
Proof.
  do 2 eexists. split; [vm_compute; reflexivity|]. repeat split.
Qed.



Lemma terminal_status_witness :
  let rt := firstTrip (env (always 404)) client
                      "GET" "/api/v1/users/7" None [] fresh in
  exists s',
    doRequest (env (always 404)) client 1 context.Background
              "GET" "/api/v1/users/7" None [] fresh
    = Some (Returns (Some (asResponse (reply 404 "") [])) None, s')
    /\ trips s' = [(firstn (consumed rt) [], rt)]
    /\ iterations s' = 1%nat.
Proof.
  apply (proj2 (terminal_status_ends_call
                  (env (always 404)) client 0 context.Background
                  "GET" "/api/v1/users/7" None [] fresh)
               None (reply 404 "") []).
  - reflexivity.
  - reflexivity.
  - vm_compute. reflexivity.
  - reflexivity.
  - reflexivity.
  - simpl. lia.
  - simpl. lia.
Defined.

Lemma success_count_witness :
  gobreaker.ConsecutiveFailures (gobreaker.counts (breaker strained)) = 5
  /\ exists ret s',
      doRequest (env (always 404)) client 1 context.Background
                "GET" "/api/v1/users/7" None [] strained
      = Some (ret, s')
      /\ gobreaker.state (breaker s') = gobreaker.StateClosed
      /\ gobreaker.counts (breaker s') = gobreaker.Build_Counts 6 1 5 1 0
      /\ gobreaker.ConsecutiveFailures (gobreaker.counts (breaker s')) = 0
      /\ gobreaker.TotalFailures (gobreaker.counts (breaker s')) = 5.
Proof.
  split; [reflexivity|].
  exact (terminal_status_counts_as_success
           (env (always 404)) client 0 context.Background
           "GET" "/api/v1/users/7" None [] strained None (reply 404 "") []
           (60 * Second)
           eq_refl eq_refl eq_refl eq_refl
           ltac:(vm_compute; discriminate) ltac:(vm_compute; discriminate)
           eq_refl eq_refl ltac:(simpl; lia) ltac:(simpl; lia)).
Defined.

Lemma span_ended_witness :
  exists r e s',
    doRequest (env flaky) client 5 context.Background
              "GET" "/api/v1/users/7" None [] fresh
    = Some (Returns r e, s')
    /\ ended (span s') = true
    /\ spanName (span s') = "GET /api/v1/users/7"
    /\ exists more,
        attributes (span s')
        = ([("http.method", AttrString "GET");
            ("http.url",
             AttrString "http://auth-api:4101/api/v1/users/7");
            ("service.name", AttrString "auth-service")] ++ more)%list.
Proof.
  do 3 eexists. split; [vm_compute; reflexivity|].
  eapply (span_ended_on_every_return
            (env flaky) client 5 context.Background
            "GET" "/api/v1/users/7" None [] fresh).
  vm_compute. reflexivity.
Defined.

Lemma retries_only_witness :
  exists ret s',
    doRequest (env refusing) client 5 context.Background
              "GET" "/api/v1/users/7" None [] fresh
    = Some (ret, s')
    /\ exists added,
        trips s' = (trips fresh ++ added)%list /\ onlyLastUnretried added.
Proof.
  do 2 eexists. split; [vm_compute; reflexivity|].
  eapply (retries_only_after_literal_text
            (env refusing) client 5 context.Background
            "GET" "/api/v1/users/7" None [] fresh).
  vm_compute. reflexivity.
Defined.
